(** * Sprint lifecycle and constraint engine of the [odoo_flow] addon

    A shallow embedding of [addons/odoo_flow/models/sprint.py] and
    [addons/odoo_flow/models/project_task.py].

    - A calendar date is its proleptic Gregorian ordinal ([date.toordinal()]),
      an unset field ([False] in Odoo) is [None].
    - The two tables are lists of rows; a recordset is a list of ids.
    - A method that can raise returns a [result]; a method that writes
      threads the database through explicitly and hands back the database
      as it stands when the method returns or raises. *)

From Stdlib Require Import ZArith List String Bool Lia PeanoNat.
Import ListNotations.
Open Scope string_scope.
Open Scope Z_scope.

(** ** Dates *)

Definition date := Z.

Definition is_leap (y : Z) : bool :=
  (y mod 4 =? 0) && (negb (y mod 100 =? 0) || (y mod 400 =? 0)).

Definition days_before_year (y : Z) : Z :=
  let p := y - 1 in p * 365 + p / 4 - p / 100 + p / 400.

Definition days_in_month (y m : Z) : Z :=
  if m =? 2 then (if is_leap y then 29 else 28)
  else if (m =? 4) || (m =? 6) || (m =? 9) || (m =? 11) then 30 else 31.

Fixpoint days_before_month_aux (y : Z) (n : nat) : Z :=
  match n with
  | O => 0
  | S k => days_before_month_aux y k + days_in_month y (Z.of_nat n)
  end.

Definition days_before_month (y m : Z) : Z :=
  days_before_month_aux y (Z.to_nat (m - 1)).

(** The ordinal of a calendar day, 0001-01-01 being day 1. *)
Definition date_of_ymd (y m d : Z) : date :=
  days_before_year y + days_before_month y m + d.

(** [(a - b).days] *)
Definition days_between (a b : date) : Z := a - b.

(** ** Errors *)

Inductive exn : Type :=
| ValidationError (msg : string)
| IntegrityError.

Inductive result (A : Type) : Type :=
| Ok (a : A)
| Raise (e : exn).
Arguments Ok {A} a.
Arguments Raise {A} e.

Definition is_validation_error {A} (r : result A) : Prop :=
  exists msg, r = Raise (ValidationError msg).

(** Runs the body of a [for record in self] loop whose body either raises
    or goes on to the next record. *)
Fixpoint for_each {R : Type} (body : R -> result unit) (self : list R)
  : result unit :=
  match self with
  | [] => Ok tt
  | r :: rest =>
      match body r with
      | Ok _ => for_each body rest
      | Raise e => Raise e
      end
  end.

(** ** Data model *)

Inductive sprint_state : Type := planned | active | done.
Inductive sprint_mode : Type := auto | manual.

Definition sprint_state_eqb (a b : sprint_state) : bool :=
  match a, b with
  | planned, planned | active, active | done, done => true
  | _, _ => false
  end.

Definition sprint_mode_eqb (a b : sprint_mode) : bool :=
  match a, b with
  | auto, auto | manual, manual => true
  | _, _ => false
  end.

(** A many2one value: the id of the target row, or [None] when empty. *)
Definition many2one := option nat.

Definition many2one_eqb (a b : many2one) : bool :=
  match a, b with
  | Some x, Some y => Nat.eqb x y
  | None, None => true
  | _, _ => false
  end.

Module Sprint.
Record t : Type := mk {
  id : nat;
  name : string;
  project_id : many2one;
  start_date : option date;
  end_date : option date;
  state_mode : sprint_mode;
  state_manual : sprint_state;
  state : sprint_state
}.
End Sprint.

Module Task.
Record t : Type := mk {
  id : nat;
  project_id : many2one;
  date_deadline : option date;
  sprint_id : many2one
}.
End Task.

(** The database: the [project.sprint] and [project.task] tables. *)
Record Env : Type := mkEnv {
  sprints : list Sprint.t;
  tasks : list Task.t
}.

Definition browse_sprint (env : Env) (i : nat) : option Sprint.t :=
  find (fun s => Nat.eqb (Sprint.id s) i) (sprints env).

Definition browse_task (env : Env) (i : nat) : option Task.t :=
  find (fun t => Nat.eqb (Task.id t) i) (tasks env).

Definition option_to_list {A} (o : option A) : list A :=
  match o with Some a => [a] | None => [] end.

(** The rows of a recordset, in the order of its ids. *)
Definition sprint_records (env : Env) (ids : list nat) : list Sprint.t :=
  flat_map (fun i => option_to_list (browse_sprint env i)) ids.

Definition task_records (env : Env) (ids : list nat) : list Task.t :=
  flat_map (fun i => option_to_list (browse_task env i)) ids.

Definition mem (i : nat) (ids : list nat) : bool := existsb (Nat.eqb i) ids.

(** [task.sprint_id] as a record: empty when the field is unset. *)
Definition task_sprint (env : Env) (task : Task.t) : option Sprint.t :=
  match Task.sprint_id task with
  | Some i => browse_sprint env i
  | None => None
  end.

(** [sprint.task_ids]: the tasks whose [sprint_id] points to the sprint. *)
Definition task_ids (env : Env) (sprint : Sprint.t) : list Task.t :=
  filter (fun t => many2one_eqb (Task.sprint_id t) (Some (Sprint.id sprint)))
         (tasks env).

(** ** Rendering a date, for the messages that quote one *)

Definition digit (d : Z) : string :=
  String (Ascii.ascii_of_nat (48 + Z.to_nat (d mod 10))) EmptyString.

Definition pad2 (n : Z) : string := digit (n / 10) ++ digit n.
Definition pad4 (n : Z) : string := pad2 (n / 100) ++ pad2 n.

(** The calendar day of an ordinal, as Python's [date.fromordinal]. *)
Definition ymd_of_date (d : date) : Z * Z * Z :=
  let n := d - 1 in
  let n400 := n / 146097 in let n := n mod 146097 in
  let n100 := n / 36524 in let n := n mod 36524 in
  let n4 := n / 1461 in let n := n mod 1461 in
  let n1 := n / 365 in let n := n mod 365 in
  let year := n400 * 400 + 1 + n100 * 100 + n4 * 4 + n1 in
  if (n1 =? 4) || (n100 =? 4) then (year - 1, 12, 31)
  else
    let month := (n + 50) / 32 in
    let preceding := days_before_month year month in
    if preceding >? n
    then (year, month - 1, n - (preceding - days_in_month year (month - 1)) + 1)
    else (year, month, n - preceding + 1).

(** [str(d)] for a date: [YYYY-MM-DD]. *)
Definition str_of_date (d : date) : string :=
  let '(y, m, dd) := ymd_of_date d in
  pad4 y ++ "-" ++ pad2 m ++ "-" ++ pad2 dd.

(** ** [project_task.py] *)

Module ProjectTask.

(** [task.project_id and sprint.project_id and
    task.project_id != sprint.project_id] *)
Definition project_mismatch (task : Task.t) (sprint : Sprint.t) : bool :=
  match Task.project_id task, Sprint.project_id sprint with
  | Some p, Some q => negb (Nat.eqb p q)
  | _, _ => false
  end.

(** [task.date_deadline and sprint.end_date and
    task.date_deadline > sprint.end_date], with the two dates the
    message quotes. *)
Definition deadline_after_end (task : Task.t) (sprint : Sprint.t)
  : option (date * date) :=
  match Task.date_deadline task, Sprint.end_date sprint with
  | Some d, Some e => if d >? e then Some (d, e) else None
  | _, _ => None
  end.

Definition msg_project : string :=
  "A task can only be assigned to a sprint belonging to the same project.

" ++ "Please update either the task's project or the assigned sprint to ensure they match.".

Definition msg_deadline (d e : date) : string :=
  "The task deadline (" ++ str_of_date d
  ++ ") falls outside the sprint period.

" ++ "Please set a deadline on or before the sprint's end date ("
  ++ str_of_date e ++ ").".

(** The body of the loop of [_check_sprint_deadline_and_project]. *)
Definition check_one (env : Env) (task : Task.t) : result unit :=
  match task_sprint env task with
  | None => Ok tt
  | Some sprint =>
      if project_mismatch task sprint then
        Raise (ValidationError msg_project)
      else
        match deadline_after_end task sprint with
        | Some (d, e) => Raise (ValidationError (msg_deadline d e))
        | None => Ok tt
        end
  end.

(** [@api.constrains("sprint_id", "date_deadline", "project_id")] *)
Definition _check_sprint_deadline_and_project (env : Env)
  (self : list Task.t) : result unit :=
  for_each (check_one env) self.

(** [@api.onchange("sprint_id")]: the deadline suggested in the form. *)
Definition _onchange_sprint_id (env : Env) (task : Task.t) : Task.t :=
  match task_sprint env task, Task.date_deadline task with
  | Some sprint, None =>
      match Sprint.end_date sprint with
      | Some e =>
          Task.mk (Task.id task) (Task.project_id task) (Some e)
                  (Task.sprint_id task)
      | None => task
      end
  | _, _ => task
  end.

End ProjectTask.

(** ** [sprint.py]: the methods that only read *)

Module ProjectSprint.

(** [o and p(o)] for a date field [o]. *)
Definition date_and (o : option date) (p : date -> bool) : bool :=
  match o with Some d => p d | None => false end.

(** The value [_compute_state] assigns to [sprint.state]. *)
Definition computed_state (today : date) (sprint : Sprint.t)
  : sprint_state :=
  match Sprint.state_mode sprint with
  | manual => Sprint.state_manual sprint
  | auto =>
      if date_and (Sprint.start_date sprint) (fun s => today <? s)
      then planned
      else if date_and (Sprint.start_date sprint) (fun s =>
                date_and (Sprint.end_date sprint) (fun e =>
                  (s <=? today) && (today <=? e)))
      then active
      else if date_and (Sprint.end_date sprint) (fun e => today >? e)
      then done
      else planned
  end.

Definition set_state (st : sprint_state) (s : Sprint.t) : Sprint.t :=
  Sprint.mk (Sprint.id s) (Sprint.name s) (Sprint.project_id s)
            (Sprint.start_date s) (Sprint.end_date s)
            (Sprint.state_mode s) (Sprint.state_manual s) st.

(** [_compute_state] on one record. *)
Definition _compute_state (today : date) (sprint : Sprint.t) : Sprint.t :=
  set_state (computed_state today sprint) sprint.

Definition msg_order : string :=
  "Sprint end date cannot be before the start date.".
Definition msg_duration : string :=
  "Sprint duration cannot exceed 4 weeks (28 days).".
Definition msg_past : string :=
  "A sprint whose end date is in the past cannot be set to Planned or Active.".
Definition msg_one_active : string :=
  "Only one active sprint is allowed per project.".
Definition msg_tasks_match : string :=
  "All tasks in the sprint must belong to the assigned project in the same sprint.".
Definition msg_select_project : string :=
  "Please select a Project before adding tasks to the sprint.".
Definition msg_only_add : string :=
  "You can only add tasks from the project assigned to the sprint.".
Definition msg_has_tasks : string :=
  "You cannot change the Project of the sprint once it has tasks.".
Definition msg_active_done : string :=
  "You cannot change the Project of the sprint once it is Active or Done.".

Definition duration_days (s e : date) : Z := days_between e s + 1.

Definition check_duration_one (sprint : Sprint.t) : result unit :=
  match Sprint.start_date sprint, Sprint.end_date sprint with
  | Some s, Some e =>
      if e <? s then Raise (ValidationError msg_order)
      else if duration_days s e >? 28
      then Raise (ValidationError msg_duration)
      else Ok tt
  | _, _ => Ok tt
  end.

(** [@api.constrains("start_date", "end_date")] *)
Definition _check_duration_and_order (self : list Sprint.t) : result unit :=
  for_each check_duration_one self.

Definition check_past_one (today : date) (sprint : Sprint.t)
  : result unit :=
  match Sprint.start_date sprint, Sprint.end_date sprint with
  | Some _, Some e =>
      if sprint_mode_eqb (Sprint.state_mode sprint) manual
         && (e <? today)
         && (sprint_state_eqb (Sprint.state_manual sprint) planned
             || sprint_state_eqb (Sprint.state_manual sprint) active)
      then Raise (ValidationError msg_past)
      else Ok tt
  | _, _ => Ok tt
  end.

(** [@api.constrains("start_date", "end_date", "state_mode",
    "state_manual")] *)
Definition _check_no_invalid_past_planned_active_sprint (today : date)
  (self : list Sprint.t) : result unit :=
  for_each (check_past_one today) self.

(** [search_count([("project_id", "=", sprint.project_id.id),
    ("state", "=", "active"), ("id", "!=", sprint.id)])] *)
Definition other_active (env : Env) (sprint : Sprint.t) : nat :=
  List.length (filter (fun o =>
                    many2one_eqb (Sprint.project_id o)
                                 (Sprint.project_id sprint)
                    && sprint_state_eqb (Sprint.state o) active
                    && negb (Nat.eqb (Sprint.id o) (Sprint.id sprint)))
                 (sprints env)).

Definition check_active_one (env : Env) (sprint : Sprint.t)
  : result unit :=
  if sprint_state_eqb (Sprint.state sprint) active then
    if negb (Nat.eqb (other_active env sprint) 0)
    then Raise (ValidationError msg_one_active)
    else Ok tt
  else Ok tt.

(** [@api.constrains("state", "project_id")] *)
Definition _check_if_project_already_has_active_sprint (env : Env)
  (self : list Sprint.t) : result unit :=
  for_each (check_active_one env) self.

Definition nonempty {A} (l : list A) : bool :=
  match l with [] => false | _ :: _ => true end.

Definition check_tasks_match_one (env : Env) (sprint : Sprint.t)
  : result unit :=
  match Sprint.project_id sprint with
  | Some _ =>
      if nonempty (task_ids env sprint) then
        if nonempty
             (filter (fun t => negb (many2one_eqb (Task.project_id t)
                                       (Sprint.project_id sprint)))
                     (task_ids env sprint))
        then Raise (ValidationError msg_tasks_match)
        else Ok tt
      else Ok tt
  | None => Ok tt
  end.

(** [@api.constrains("project_id", "task_ids", "state")] *)
Definition _check_tasks_match_project (env : Env) (self : list Sprint.t)
  : result unit :=
  for_each (check_tasks_match_one env) self.

(** [Task.search_count([("sprint_id", "=", sprint.id)])] *)
Definition count_tasks (env : Env) (sprint : Sprint.t) : nat :=
  List.length (task_ids env sprint).

(** The loop of [write] that runs when ["project_id" in vals]. *)
Definition write_guard_one (env : Env) (sprint : Sprint.t)
  : result unit :=
  if (0 <? count_tasks env sprint)%nat
  then Raise (ValidationError msg_has_tasks)
  else if sprint_state_eqb (Sprint.state sprint) active
          || sprint_state_eqb (Sprint.state sprint) done
  then Raise (ValidationError msg_active_done)
  else Ok tt.

Definition write_guard (env : Env) (self : list Sprint.t) : result unit :=
  for_each (write_guard_one env) self.

(** [@api.onchange("start_date", "end_date", "state_mode",
    "state_manual")]: the state shown in the form. *)
Definition _onchange_recompute_state (today : date) (sprint : Sprint.t)
  : Sprint.t :=
  _compute_state today sprint.

(** [@api.onchange("start_date")]: the end date proposed in the form. *)
Definition _onchange_start_date_set_default_end (sprint : Sprint.t)
  : Sprint.t :=
  match Sprint.start_date sprint, Sprint.end_date sprint with
  | Some s, None =>
      Sprint.mk (Sprint.id sprint) (Sprint.name sprint)
                (Sprint.project_id sprint) (Some s) (Some (s + 14))
                (Sprint.state_mode sprint) (Sprint.state_manual sprint)
                (Sprint.state sprint)
  | _, _ => sprint
  end.

End ProjectSprint.

(** ** The record layer the two models run on

    The two models inherit [create], [write] and [unlink] from the
    framework, whose code is not in the repository.  What follows is what
    these do with a row as far as the two models rely on it, after the
    decorators of the source and sections 3, 4.1, 4.3, 5 and 7 of the spec:
    assign the given fields, recompute a stored computed field when one of
    its [@api.depends] fields is written, then run each [@api.constrains]
    method one of whose fields was written or recomputed, on the written
    records.  A required field left empty and a many2one without target row
    are refused by the database ([IntegrityError]).  A request runs in one
    transaction: an exception undoes its writes. *)

Module Orm.

(** A method that reads and writes the database and may raise; on a raise
    the database is the one the method had reached. *)
Definition M (A : Type) : Type := Env -> result A * Env.

Definition ret {A} (a : A) : M A := fun env => (Ok a, env).

Definition raise {A} (e : exn) : M A := fun env => (Raise e, env).

Definition bind {A B} (m : M A) (k : A -> M B) : M B :=
  fun env =>
    match m env with
    | (Ok a, env') => k a env'
    | (Raise e, env') => (Raise e, env')
    end.

(** Modelled from the spec: the transaction of the datastore around a
    request.  Section 7: every rejection aborts the entire enclosing write
    or create without partial effect. *)
Definition transaction {A} (m : M A) : M A :=
  fun env =>
    match m env with
    | (Ok a, env') => (Ok a, env')
    | (Raise e, _) => (Raise e, env)
    end.

Fixpoint for_each_M {R : Type} (body : R -> M unit) (self : list R)
  : M unit :=
  match self with
  | [] => ret tt
  | r :: rest => bind (body r) (fun _ => for_each_M body rest)
  end.

(** Modelled from the spec: the framework's call of the constraint
    methods, each given with the fields of its [@api.constrains].  Section
    4.3: each validator runs after any create or update touching its watched
    fields, over the affected records, and raises on the first violation. *)
Definition validate_fields {R F : Type} (eqb : F -> F -> bool)
  (methods : list (list F * (list R -> result unit)))
  (touched : list F) (self : list R) : result unit :=
  for_each (fun m =>
              if existsb (fun f => existsb (eqb f) touched) (fst m)
              then snd m self else Ok tt)
           methods.

(** *** project.sprint *)

Inductive sprint_field : Type :=
| f_name | f_project_id | f_start_date | f_end_date
| f_state_mode | f_state_manual | f_state | f_task_ids.

Definition sprint_field_eqb (a b : sprint_field) : bool :=
  match a, b with
  | f_name, f_name | f_project_id, f_project_id
  | f_start_date, f_start_date | f_end_date, f_end_date
  | f_state_mode, f_state_mode | f_state_manual, f_state_manual
  | f_state, f_state | f_task_ids, f_task_ids => true
  | _, _ => false
  end.

(** The [vals] dictionary of a sprint: [Some v] when the key is present.
    [state] is computed and read-only and [task_ids] is the reverse of
    [task.sprint_id], so neither is a key. *)
Record sprint_vals : Type := mk_sprint_vals {
  v_name : option string;
  v_project_id : option many2one;
  v_start_date : option (option date);
  v_end_date : option (option date);
  v_state_mode : option sprint_mode;
  v_state_manual : option sprint_state
}.

Definition no_sprint_vals : sprint_vals :=
  mk_sprint_vals None None None None None None.

Definition key {A} (f : sprint_field) (o : option A) : list sprint_field :=
  match o with Some _ => [f] | None => [] end.

Definition sprint_keys (vals : sprint_vals) : list sprint_field :=
  key f_name (v_name vals) ++ key f_project_id (v_project_id vals)
  ++ key f_start_date (v_start_date vals)
  ++ key f_end_date (v_end_date vals)
  ++ key f_state_mode (v_state_mode vals)
  ++ key f_state_manual (v_state_manual vals).

Definition or_else {A} (o : option A) (d : A) : A :=
  match o with Some a => a | None => d end.

Definition assign_sprint (vals : sprint_vals) (s : Sprint.t) : Sprint.t :=
  Sprint.mk (Sprint.id s)
            (or_else (v_name vals) (Sprint.name s))
            (or_else (v_project_id vals) (Sprint.project_id s))
            (or_else (v_start_date vals) (Sprint.start_date s))
            (or_else (v_end_date vals) (Sprint.end_date s))
            (or_else (v_state_mode vals) (Sprint.state_mode s))
            (or_else (v_state_manual vals) (Sprint.state_manual s))
            (Sprint.state s).

Definition update_sprints (f : Sprint.t -> Sprint.t) (ids : list nat)
  (env : Env) : Env :=
  mkEnv (map (fun s => if mem (Sprint.id s) ids then f s else s)
             (sprints env))
        (tasks env).

(** [required=True] on [project_id], [start_date] and [end_date]. *)
Definition clears_required (vals : sprint_vals) : bool :=
  match v_project_id vals, v_start_date vals, v_end_date vals with
  | Some None, _, _ | _, Some None, _ | _, _, Some None => true
  | _, _, _ => false
  end.

(** [@api.depends] of [_compute_state]. *)
Definition state_depends : list sprint_field :=
  [f_start_date; f_end_date; f_state_mode; f_state_manual].

Definition intersects (a b : list sprint_field) : bool :=
  existsb (fun f => existsb (sprint_field_eqb f) b) a.

(** The constraint methods of [ProjectSprint] with the fields of their
    decorators, in the order the framework runs them (by name); the order
    only decides which message is seen when several rules are broken. *)
Definition sprint_constraints (today : date) (env : Env)
  : list (list sprint_field * (list Sprint.t -> result unit)) :=
  [ ([f_start_date; f_end_date],
     ProjectSprint._check_duration_and_order);
    ([f_state; f_project_id],
     ProjectSprint._check_if_project_already_has_active_sprint env);
    ([f_start_date; f_end_date; f_state_mode; f_state_manual],
     ProjectSprint._check_no_invalid_past_planned_active_sprint today);
    ([f_project_id; f_task_ids; f_state],
     ProjectSprint._check_tasks_match_project env) ].

Definition validate_sprints (today : date) (touched : list sprint_field)
  (ids : list nat) (env : Env) : result unit :=
  validate_fields sprint_field_eqb (sprint_constraints today env) touched
                  (sprint_records env ids).

(** What a write does to one row: the assignment, then the recomputation
    of [state] when a field it depends on is among the keys. *)
Definition write_row (today : date) (vals : sprint_vals) (s : Sprint.t)
  : Sprint.t :=
  if intersects state_depends (sprint_keys vals)
  then ProjectSprint._compute_state today (assign_sprint vals s)
  else assign_sprint vals s.

(** The fields a write touches: its keys, and [state] when recomputed. *)
Definition touched_by (vals : sprint_vals) : list sprint_field :=
  if intersects state_depends (sprint_keys vals)
  then f_state :: sprint_keys vals
  else sprint_keys vals.

(** Modelled from the spec: [models.Model.write] of the framework on
    sprints, the [super().write(vals)] of the source.  Section 4.1: a write
    to [start_date], [end_date], [state_mode] or [state_manual] recomputes
    [state] before the write is complete and before the invariants are
    checked; section 3: [project_id] and the two dates are required. *)
Definition write_sprint (today : date) (ids : list nat)
  (vals : sprint_vals) : M unit :=
  fun env =>
    if clears_required vals
       && ProjectSprint.nonempty (sprint_records env ids)
    then (Raise IntegrityError, env)
    else
      let env1 := update_sprints (write_row today vals) ids env in
      (validate_sprints today (touched_by vals) ids env1, env1).

(** Modelled from the spec: the framework's [sprint.state = value] outside
    of a recomputation, which is a write of the one field, followed by the
    validators that watch it (section 4.3). *)
Definition store_state (today : date) (i : nat) (st : sprint_state)
  : M unit :=
  fun env =>
    let env1 := update_sprints (ProjectSprint.set_state st) [i] env in
    (validate_sprints today [f_state] [i] env1, env1).

Definition fresh_id (used : list nat) : nat := S (fold_right Nat.max O used).

Definition all_sprint_fields : list sprint_field :=
  [f_name; f_project_id; f_start_date; f_end_date; f_state_mode;
   f_state_manual; f_state].

(** Modelled from the spec: [models.Model.create] of the framework on
    sprints.  Section 3: a sprint is created with the required fields and
    its state is computed immediately; [state_mode] defaults to [auto] and
    [state_manual] to [planned] (the [default=] of the source); every
    validator runs on the new record. *)
Definition create_sprint (today : date) (vals : sprint_vals) : M nat :=
  fun env =>
    match v_name vals, v_project_id vals, v_start_date vals,
          v_end_date vals with
    | Some n, Some (Some p), Some (Some s), Some (Some e) =>
        let i := fresh_id (map Sprint.id (sprints env)) in
        let row :=
          ProjectSprint._compute_state today
            (Sprint.mk i n (Some p) (Some s) (Some e)
                       (or_else (v_state_mode vals) auto)
                       (or_else (v_state_manual vals) planned)
                       planned) in
        let env1 := mkEnv (sprints env ++ [row]) (tasks env) in
        match validate_sprints today all_sprint_fields [i] env1 with
        | Ok _ => (Ok i, env1)
        | Raise e => (Raise e, env1)
        end
    | _, _, _, _ => (Raise IntegrityError, env)
    end.

Definition clear_sprint (ids : list nat) (t : Task.t) : Task.t :=
  match Task.sprint_id t with
  | Some i =>
      if mem i ids
      then Task.mk (Task.id t) (Task.project_id t) (Task.date_deadline t)
                   None
      else t
  | None => t
  end.

(** Modelled from the spec: [unlink] of the framework on sprints.  Section
    3: on deletion the sprint reference of its tasks is cleared, as a
    foreign key is nullified. *)
Definition unlink_sprint (ids : list nat) : M unit :=
  fun env =>
    (Ok tt,
     mkEnv (filter (fun s => negb (mem (Sprint.id s) ids)) (sprints env))
           (map (clear_sprint ids) (tasks env))).

(** *** project.task *)

Inductive task_field : Type :=
| tf_project_id | tf_date_deadline | tf_sprint_id.

Definition task_field_eqb (a b : task_field) : bool :=
  match a, b with
  | tf_project_id, tf_project_id | tf_date_deadline, tf_date_deadline
  | tf_sprint_id, tf_sprint_id => true
  | _, _ => false
  end.

Record task_vals : Type := mk_task_vals {
  tv_project_id : option many2one;
  tv_date_deadline : option (option date);
  tv_sprint_id : option many2one
}.

Definition tkey {A} (f : task_field) (o : option A) : list task_field :=
  match o with Some _ => [f] | None => [] end.

Definition task_keys (vals : task_vals) : list task_field :=
  tkey tf_project_id (tv_project_id vals)
  ++ tkey tf_date_deadline (tv_date_deadline vals)
  ++ tkey tf_sprint_id (tv_sprint_id vals).

Definition assign_task (vals : task_vals) (t : Task.t) : Task.t :=
  Task.mk (Task.id t)
          (or_else (tv_project_id vals) (Task.project_id t))
          (or_else (tv_date_deadline vals) (Task.date_deadline t))
          (or_else (tv_sprint_id vals) (Task.sprint_id t)).

Definition update_tasks (f : Task.t -> Task.t) (ids : list nat)
  (env : Env) : Env :=
  mkEnv (sprints env)
        (map (fun t => if mem (Task.id t) ids then f t else t)
             (tasks env)).

(** The foreign key of [task.sprint_id]. *)
Definition dangling_sprint (env : Env) (vals : task_vals) : bool :=
  match tv_sprint_id vals with
  | Some (Some i) =>
      match browse_sprint env i with Some _ => false | None => true end
  | _ => false
  end.

Definition task_constraints (env : Env)
  : list (list task_field * (list Task.t -> result unit)) :=
  [ ([tf_sprint_id; tf_date_deadline; tf_project_id],
     ProjectTask._check_sprint_deadline_and_project env) ].

Definition validate_tasks (touched : list task_field) (ids : list nat)
  (env : Env) : result unit :=
  validate_fields task_field_eqb (task_constraints env) touched
                  (task_records env ids).

(** Modelled from the spec: [models.Model.write] of the framework on
    tasks, with the validator of [project_task.py] (section 4.3). *)
Definition write_task (ids : list nat) (vals : task_vals) : M unit :=
  fun env =>
    if dangling_sprint env vals
       && ProjectSprint.nonempty (task_records env ids)
    then (Raise IntegrityError, env)
    else
      let env1 := update_tasks (assign_task vals) ids env in
      (validate_tasks (task_keys vals) ids env1, env1).

Definition all_task_fields : list task_field :=
  [tf_project_id; tf_date_deadline; tf_sprint_id].

(** Modelled from the spec: [models.Model.create] of the framework on
    tasks; every validator runs on the new record. *)
Definition create_task (vals : task_vals) : M nat :=
  fun env =>
    if dangling_sprint env vals then (Raise IntegrityError, env)
    else
      let i := fresh_id (map Task.id (tasks env)) in
      let row := Task.mk i (or_else (tv_project_id vals) None)
                         (or_else (tv_date_deadline vals) None)
                         (or_else (tv_sprint_id vals) None) in
      let env1 := mkEnv (sprints env) (tasks env ++ [row]) in
      match validate_tasks all_task_fields [i] env1 with
      | Ok _ => (Ok i, env1)
      | Raise e => (Raise e, env1)
      end.

(** Modelled from the spec: [unlink] of the framework on tasks. *)
Definition unlink_task (ids : list nat) : M unit :=
  fun env =>
    (Ok tt,
     mkEnv (sprints env)
           (filter (fun t => negb (mem (Task.id t) ids)) (tasks env))).

End Orm.

(** ** [sprint.py]: the methods that write *)

Module ProjectSprintWrite.
Import Orm.

(** [_compute_task_select_ids]: the selection shown is [task_ids]. *)
Definition _compute_task_select_ids (env : Env) (sprint : Sprint.t)
  : list nat :=
  map Task.id (task_ids env sprint).

Definition sprint_id_vals (v : many2one) : task_vals :=
  mk_task_vals None None (Some v).

(** [sprint.task_select_ids - sprint.task_ids] *)
Definition to_add (env : Env) (sprint : Sprint.t) (selected : list nat)
  : list nat :=
  filter (fun i => negb (mem i (map Task.id (task_ids env sprint))))
         selected.

(** [sprint.task_ids - sprint.task_select_ids] *)
Definition to_remove (env : Env) (sprint : Sprint.t) (selected : list nat)
  : list nat :=
  filter (fun i => negb (mem i selected))
         (map Task.id (task_ids env sprint)).

(** [to_add.filtered(lambda t: t.project_id != sprint.project_id)] *)
Definition mismatched (env : Env) (sprint : Sprint.t)
  (selected : list nat) : list Task.t :=
  filter (fun t => negb (many2one_eqb (Task.project_id t)
                                      (Sprint.project_id sprint)))
         (task_records env (to_add env sprint selected)).

(** The body of the loop of [_inverse_task_select_ids], [selected] being
    the value written to [task_select_ids]. *)
Definition inverse_one (selected : list nat) (i : nat) : M unit :=
  fun env =>
    match browse_sprint env i with
    | None => (Ok tt, env)
    | Some sprint =>
        match Sprint.project_id sprint with
        | None =>
            (Raise (ValidationError ProjectSprint.msg_select_project), env)
        | Some _ =>
            if ProjectSprint.nonempty (mismatched env sprint selected)
            then (Raise (ValidationError ProjectSprint.msg_only_add), env)
            else
              bind (write_task (to_add env sprint selected)
                               (sprint_id_vals (Some (Sprint.id sprint))))
                   (fun _ =>
                      write_task (to_remove env sprint selected)
                                 (sprint_id_vals None))
                   env
        end
    end.

Definition _inverse_task_select_ids (self : list nat)
  (selected : list nat) : M unit :=
  for_each_M (inverse_one selected) self.

Definition has_project_key (vals : sprint_vals) : bool :=
  match v_project_id vals with Some _ => true | None => false end.

(** [ProjectSprint.write]: the guard, then [super().write(vals)]. *)
Definition write (today : date) (self : list nat) (vals : sprint_vals)
  : M unit :=
  fun env =>
    if has_project_key vals then
      match ProjectSprint.write_guard env (sprint_records env self) with
      | Raise e => (Raise e, env)
      | Ok _ => write_sprint today self vals env
      end
    else write_sprint today self vals env.

(** [self._compute_state()] called as a method: every assignment to
    [sprint.state] is a write of that field. *)
Definition compute_state_call (today : date) (self : list nat) : M unit :=
  for_each_M
    (fun i env =>
       match browse_sprint env i with
       | Some sprint =>
           store_state today i (ProjectSprint.computed_state today sprint)
                       env
       | None => (Ok tt, env)
       end)
    self.

Definition mode_vals (m : sprint_mode) (st : option sprint_state)
  : sprint_vals :=
  mk_sprint_vals None None None None (Some m) st.

Definition action_set_auto (today : date) (self : list nat) : M unit :=
  bind (write today self (mode_vals auto None))
       (fun _ => compute_state_call today self).

Definition action_set_planned (today : date) (self : list nat) : M unit :=
  write today self (mode_vals manual (Some planned)).

Definition action_set_active (today : date) (self : list nat) : M unit :=
  write today self (mode_vals manual (Some active)).

Definition action_set_done (today : date) (self : list nat) : M unit :=
  write today self (mode_vals manual (Some done)).

End ProjectSprintWrite.

(** ** The requests a caller can make *)

Inductive mutation : Type :=
| SprintCreate (vals : Orm.sprint_vals)
| SprintWrite (ids : list nat) (vals : Orm.sprint_vals)
| SprintUnlink (ids : list nat)
| SprintSelectTasks (ids : list nat) (selected : list nat)
| ActionSetAuto (ids : list nat)
| ActionSetPlanned (ids : list nat)
| ActionSetActive (ids : list nat)
| ActionSetDone (ids : list nat)
| TaskCreate (vals : Orm.task_vals)
| TaskWrite (ids : list nat) (vals : Orm.task_vals)
| TaskUnlink (ids : list nat).

Definition perform (today : date) (m : mutation) : Orm.M unit :=
  match m with
  | SprintCreate vals =>
      Orm.bind (Orm.create_sprint today vals) (fun _ => Orm.ret tt)
  | SprintWrite ids vals => ProjectSprintWrite.write today ids vals
  | SprintUnlink ids => Orm.unlink_sprint ids
  | SprintSelectTasks ids selected =>
      ProjectSprintWrite._inverse_task_select_ids ids selected
  | ActionSetAuto ids => ProjectSprintWrite.action_set_auto today ids
  | ActionSetPlanned ids => ProjectSprintWrite.action_set_planned today ids
  | ActionSetActive ids => ProjectSprintWrite.action_set_active today ids
  | ActionSetDone ids => ProjectSprintWrite.action_set_done today ids
  | TaskCreate vals =>
      Orm.bind (Orm.create_task vals) (fun _ => Orm.ret tt)
  | TaskWrite ids vals => Orm.write_task ids vals
  | TaskUnlink ids => Orm.unlink_task ids
  end.

(** A request as the caller sees it: all of its writes, or none. *)
Definition request (today : date) (m : mutation) : Orm.M unit :=
  Orm.transaction (perform today m).

(** ** Well-formed databases and the invariants of the data model *)

(** Ids are primary keys and [task.sprint_id] is a foreign key. *)
Definition well_formed (env : Env) : Prop :=
  NoDup (map Sprint.id (sprints env))
  /\ NoDup (map Task.id (tasks env))
  /\ forall t i, In t (tasks env) -> Task.sprint_id t = Some i ->
       exists s, In s (sprints env) /\ Sprint.id s = i.

(** At most one sprint of a project is active. *)
Definition one_active_per_project (env : Env) : Prop :=
  forall a b, In a (sprints env) -> In b (sprints env) ->
    Sprint.state a = active -> Sprint.state b = active ->
    Sprint.project_id a = Sprint.project_id b ->
    Sprint.id a = Sprint.id b.

(** A task in a sprint is in the sprint's project, when both are set. *)
Definition task_project_matches (env : Env) : Prop :=
  forall t s p q, In t (tasks env) -> In s (sprints env) ->
    Task.sprint_id t = Some (Sprint.id s) ->
    Task.project_id t = Some p -> Sprint.project_id s = Some q ->
    p = q.

(** The deadline of a task in a sprint is not after the sprint's end. *)
Definition deadline_within_sprint (env : Env) : Prop :=
  forall t s d e, In t (tasks env) -> In s (sprints env) ->
    Task.sprint_id t = Some (Sprint.id s) ->
    Task.date_deadline t = Some d -> Sprint.end_date s = Some e ->
    d <= e.

(** A method keeps a property of the database when it returns. *)
Definition preserves {A : Type} (P : Env -> Prop) (m : Orm.M A) : Prop :=
  forall env a env', m env = (Ok a, env') -> P env -> P env'.

(** A constraint method with these watched fields runs on a write that
    touches those. *)
Definition watches (watched : list Orm.sprint_field)
  (touched : list Orm.sprint_field) : bool :=
  existsb (fun f => existsb (Orm.sprint_field_eqb f) touched) watched.

(** The task validator watches every field a task write can carry. *)
Definition watches_task (touched : list Orm.task_field) : bool :=
  existsb (fun f => existsb (Orm.task_field_eqb f) touched)
          [Orm.tf_sprint_id; Orm.tf_date_deadline; Orm.tf_project_id].

(** An invariant of the data model on a database whose keys hold. *)
Definition with_keys (I : Env -> Prop) (env : Env) : Prop :=
  well_formed env /\ I env.

(** The one request that moves the end of a sprint that may have tasks. *)
Definition writes_end_date (m : mutation) : bool :=
  match m with
  | SprintWrite _ vals =>
      match Orm.v_end_date vals with Some _ => true | None => false end
  | _ => false
  end.

(** ** The claims as they are worded, and the rows of the scenarios *)

(** The claim as it is worded: the three date cases when both dates are
    set, and [planned] whenever a date is missing. *)
Definition C1_as_stated (today : date) (sp : Sprint.t) : Prop :=
  let st := Sprint.state (ProjectSprint._compute_state today sp) in
  (Sprint.state_mode sp = manual -> st = Sprint.state_manual sp)
  /\ (Sprint.state_mode sp = auto ->
      forall s e, Sprint.start_date sp = Some s ->
                  Sprint.end_date sp = Some e ->
        (today < s -> st = planned)
        /\ (s <= today <= e -> st = active)
        /\ (today > e -> st = done))
  /\ (Sprint.state_mode sp = auto ->
      Sprint.start_date sp = None \/ Sprint.end_date sp = None ->
      st = planned).

Definition sprint_without_start : Sprint.t :=
  Sprint.mk 1%nat "S" (Some 1%nat) None (Some (date_of_ymd 2024 1 14))
            auto planned planned.

Definition scenario_sprint : Sprint.t :=
  Sprint.mk 1%nat "S" (Some 1%nat) (Some (date_of_ymd 2024 1 1))
            (Some (date_of_ymd 2024 1 14)) auto planned planned.

(** Scenario C: from 2024-01-01 to 2024-02-15. *)
Definition sprint_46_days : Sprint.t :=
  Sprint.mk 1%nat "S" (Some 1%nat) (Some (date_of_ymd 2024 1 1))
            (Some (date_of_ymd 2024 2 15)) auto planned planned.

(** Scenario D: sprint 1 of project 1 is active, sprint 2 of the same
    project is planned. *)
Definition scenario_D : Env :=
  mkEnv [Sprint.mk 1%nat "S1" (Some 1%nat) (Some (date_of_ymd 2024 1 1))
                   (Some (date_of_ymd 2024 1 14)) manual active active;
         Sprint.mk 2%nat "S2" (Some 1%nat) (Some (date_of_ymd 2024 1 15))
                   (Some (date_of_ymd 2024 1 28)) auto planned planned]
        [].

(** A planned sprint from 2024-01-10 to 2024-01-31 of project 1. *)
Definition january_sprint : Sprint.t :=
  Sprint.mk 1%nat "S" (Some 1%nat) (Some (date_of_ymd 2024 1 10))
            (Some (date_of_ymd 2024 1 31)) auto planned planned.

(** The sprint with one task of its project, due on 2024-01-30. *)
Definition sprint_with_task : Env :=
  mkEnv [january_sprint]
        [Task.mk 1%nat (Some 1%nat) (Some (date_of_ymd 2024 1 30))
                 (Some 1%nat)].

Definition end_date_vals (e : date) : Orm.sprint_vals :=
  Orm.mk_sprint_vals None None None (Some (Some e)) None None.

Definition project_vals (p : many2one) : Orm.sprint_vals :=
  Orm.mk_sprint_vals None (Some p) None None None None.

Definition start_date_vals (s : date) : Orm.sprint_vals :=
  Orm.mk_sprint_vals None None (Some (Some s)) None None None.

(** C6 as it is worded: the deadlines stay within the sprints through every
    successful request. *)
Definition C6_as_stated : Prop :=
  forall today m env env',
    well_formed env -> deadline_within_sprint env ->
    request today m env = (Ok tt, env') ->
    deadline_within_sprint env'.

Definition deadline_vals (d : date) : Orm.task_vals :=
  Orm.mk_task_vals None (Some (Some d)) None.

(** Scenario E: the January sprint held in manual mode as planned. *)
Definition manual_planned_sprint : Sprint.t :=
  Sprint.mk 1%nat "S" (Some 1%nat) (Some (date_of_ymd 2024 1 10))
            (Some (date_of_ymd 2024 1 31)) manual planned planned.

(** A sprint without project, and a task of project 2. *)
Definition sprint_without_project : Env :=
  mkEnv [Sprint.mk 1%nat "S" None (Some (date_of_ymd 2024 1 10))
                   (Some (date_of_ymd 2024 1 31)) auto planned planned]
        [Task.mk 1%nat (Some 2%nat) None None].

(** The January sprint, and a task of its project due on 2024-02-20 that
    is in no sprint. *)
Definition sprint_and_late_task : Env :=
  mkEnv [january_sprint]
        [Task.mk 1%nat (Some 1%nat) (Some (date_of_ymd 2024 2 20)) None].

(** The January sprint, and a task of project 2 that is in no sprint. *)
Definition sprint_and_foreign_task : Env :=
  mkEnv [january_sprint] [Task.mk 1%nat (Some 2%nat) None None].

(** C9 as it is worded: the two messages of the spec. *)
Definition C9_as_stated : Prop :=
  forall selected i env sprint,
    browse_sprint env i = Some sprint ->
    (Sprint.project_id sprint = None ->
     fst (ProjectSprintWrite._inverse_task_select_ids [i] selected env)
     = Raise (ValidationError "select project before adding tasks"))
    /\ (Sprint.project_id sprint <> None ->
        ProjectSprintWrite.mismatched env sprint selected <> [] ->
        fst (ProjectSprintWrite._inverse_task_select_ids [i] selected env)
        = Raise (ValidationError "tasks must belong to assigned project")).

(** [task] with its sprint reference set to [v]. *)
Definition with_sprint (v : many2one) (t : Task.t) : Task.t :=
  Orm.assign_task (ProjectSprintWrite.sprint_id_vals v) t.

(** The task table after the selection is applied as a diff: the tasks to
    add point to the sprint, the tasks to remove to none, the others are
    untouched. *)
Definition selection_applied (sprint : Sprint.t) (selected : list nat)
  (env : Env) : Env :=
  mkEnv (sprints env)
        (map (fun t =>
                if mem (Task.id t)
                       (ProjectSprintWrite.to_add env sprint selected)
                then with_sprint (Some (Sprint.id sprint)) t
                else if mem (Task.id t)
                            (ProjectSprintWrite.to_remove env sprint selected)
                then with_sprint None t
                else t)
             (tasks env)).

(** C8 as it is worded: on a sprint with a project the selection is
    applied as a diff unless a task to add is of another project, in which
    case the write is refused and nothing is written. *)
Definition C8_as_stated : Prop :=
  forall selected i env sprint,
    well_formed env ->
    browse_sprint env i = Some sprint ->
    Sprint.project_id sprint <> None ->
    (ProjectSprintWrite.mismatched env sprint selected = [] ->
     ProjectSprintWrite._inverse_task_select_ids [i] selected env
     = (Ok tt, selection_applied sprint selected env))
    /\ (ProjectSprintWrite.mismatched env sprint selected <> [] ->
        exists msg,
          ProjectSprintWrite._inverse_task_select_ids [i] selected env
          = (Raise (ValidationError msg), env)).

(** The January sprint with its task, and a second task of the project
    that is in no sprint and has no deadline. *)
Definition sprint_and_two_tasks : Env :=
  mkEnv [january_sprint]
        [Task.mk 1%nat (Some 1%nat) (Some (date_of_ymd 2024 1 30))
                 (Some 1%nat);
         Task.mk 2%nat (Some 1%nat) None None].

(** * Properties *)

(** ** Loops that raise *)

Lemma for_each_ok {R : Type} (body : R -> result unit) (self : list R) :
  for_each body self = Ok tt <-> forall r, In r self -> body r = Ok tt.
Proof.
  induction self as [|r rest IH]; simpl.
  - split; [intros _ r []|reflexivity].
  - destruct (body r) as [[]|e] eqn:E.
    + rewrite IH. split.
      * intros H x [<-|Hx]; [exact E|exact (H x Hx)].
      * intros H x Hx. apply H. now right.
    + split; [discriminate|].
      intros H. specialize (H r (or_introl eq_refl)). congruence.
Qed.

Lemma for_each_raise {R : Type} (body : R -> result unit) (self : list R) e :
  for_each body self = Raise e -> exists r, In r self /\ body r = Raise e.
Proof.
  induction self as [|r rest IH]; simpl; [discriminate|].
  destruct (body r) as [[]|e'] eqn:E.
  - intros H. destruct (IH H) as (x & Hx & Hb). exists x. auto.
  - intros [= <-]. exists r. auto.
Qed.

Lemma for_each_not_ok {R : Type} (body : R -> result unit) (self : list R) r e :
  In r self -> body r = Raise e -> exists e', for_each body self = Raise e'.
Proof.
  intros Hin Hb. destruct (for_each body self) as [[]|e'] eqn:E.
  - rewrite for_each_ok in E. rewrite (E r Hin) in Hb. discriminate.
  - now exists e'.
Qed.

(** A loop whose body raises nothing but validation errors does the same. *)
Lemma for_each_validation {R : Type} (body : R -> result unit)
  (self : list R) :
  (forall r e, body r = Raise e -> exists msg, e = ValidationError msg) ->
  forall e, for_each body self = Raise e -> exists msg, e = ValidationError msg.
Proof.
  intros Hb e H. destruct (for_each_raise _ _ _ H) as (r & _ & Hr).
  exact (Hb r e Hr).
Qed.

Lemma result_unit_cases (r : result unit) :
  r = Ok tt \/ exists e, r = Raise e.
Proof. destruct r as [[]|e]; [now left|right; now exists e]. Qed.

(** ** Comparison of enumerations and references *)

Lemma sprint_state_eqb_eq a b : sprint_state_eqb a b = true <-> a = b.
Proof. destruct a, b; simpl; split; congruence. Qed.

Lemma sprint_mode_eqb_eq a b : sprint_mode_eqb a b = true <-> a = b.
Proof. destruct a, b; simpl; split; congruence. Qed.

Lemma many2one_eqb_eq a b : many2one_eqb a b = true <-> a = b.
Proof.
  destruct a as [x|], b as [y|]; simpl; try (split; congruence).
  rewrite Nat.eqb_eq. split; congruence.
Qed.

Lemma many2one_eqb_refl a : many2one_eqb a a = true.
Proof. now apply many2one_eqb_eq. Qed.

Lemma mem_In i ids : mem i ids = true <-> In i ids.
Proof.
  unfold mem. rewrite existsb_exists. split.
  - intros (x & Hx & E). apply Nat.eqb_eq in E. now subst.
  - intros H. exists i. split; [exact H|apply Nat.eqb_refl].
Qed.

Lemma nonempty_false {A} (l : list A) :
  ProjectSprint.nonempty l = false <-> l = [].
Proof. destruct l; simpl; split; congruence. Qed.

(** ** The date validator on one sprint *)

Lemma check_duration_one_spec (sp : Sprint.t) (s e : date) :
  Sprint.start_date sp = Some s -> Sprint.end_date sp = Some e ->
  (e < s -> ProjectSprint.check_duration_one sp
            = Raise (ValidationError ProjectSprint.msg_order))
  /\ (s <= e -> days_between e s + 1 > 28 ->
      ProjectSprint.check_duration_one sp
      = Raise (ValidationError ProjectSprint.msg_duration))
  /\ (s <= e -> days_between e s + 1 <= 28 ->
      ProjectSprint.check_duration_one sp = Ok tt).
Proof.
  intros Hs He. unfold ProjectSprint.check_duration_one,
    ProjectSprint.duration_days, days_between. rewrite Hs, He.
  repeat split; intros.
  - destruct (Z.ltb_spec e s); [reflexivity|lia].
  - destruct (Z.ltb_spec e s); [lia|].
    destruct (Z.gtb_spec (e - s + 1) 28); [reflexivity|lia].
  - destruct (Z.ltb_spec e s); [lia|].
    destruct (Z.gtb_spec (e - s + 1) 28); [lia|reflexivity].
Qed.

Lemma check_duration_one_raise (sp : Sprint.t) (x : exn) :
  ProjectSprint.check_duration_one sp = Raise x ->
  exists s e, Sprint.start_date sp = Some s /\ Sprint.end_date sp = Some e
    /\ (e < s \/ days_between e s + 1 > 28)
    /\ exists msg, x = ValidationError msg.
Proof.
  unfold ProjectSprint.check_duration_one, ProjectSprint.duration_days,
    days_between.
  destruct (Sprint.start_date sp) as [s|]; [|discriminate].
  destruct (Sprint.end_date sp) as [e|]; [|discriminate].
  destruct (Z.ltb_spec e s).
  - intros [= <-]. exists s, e.
    split; [reflexivity|split; [reflexivity|split; [lia|eauto]]].
  - destruct (Z.gtb_spec (e - s + 1) 28); [|discriminate].
    intros [= <-]. exists s, e.
    split; [reflexivity|split; [reflexivity|split; [lia|eauto]]].
Qed.

(** ** Rows, ids and recordsets *)

Section Rows.
Context {R : Type} (key : R -> nat).

Lemma find_key_some (l : list R) (i : nat) (r : R) :
  find (fun x => Nat.eqb (key x) i) l = Some r -> In r l /\ key r = i.
Proof.
  intros H. apply find_some in H. destruct H as [Hin E].
  apply Nat.eqb_eq in E. auto.
Qed.

Lemma find_key_none (l : list R) (i : nat) :
  find (fun x => Nat.eqb (key x) i) l = None <-> ~ In i (map key l).
Proof.
  split.
  - intros H Hin. apply in_map_iff in Hin. destruct Hin as (r & E & Hr).
    apply (find_none _ _ H) in Hr. apply Nat.eqb_neq in Hr. auto.
  - intros H. destruct (find _ l) as [r|] eqn:E; [|reflexivity].
    apply find_key_some in E. destruct E as [Hin <-].
    exfalso. apply H. now apply in_map.
Qed.

Lemma find_key_nodup (l : list R) (r : R) :
  NoDup (map key l) -> In r l ->
  find (fun x => Nat.eqb (key x) (key r)) l = Some r.
Proof.
  induction l as [|x l IH]; simpl; [intros _ []|].
  intros Hnd [->|Hin].
  - now rewrite Nat.eqb_refl.
  - inversion Hnd as [|? ? Hx Hl]; subst.
    destruct (Nat.eqb_spec (key x) (key r)) as [E|_]; [|auto].
    exfalso. apply Hx. rewrite E. now apply in_map.
Qed.

Lemma find_key_map (h : R -> R) (l : list R) (i : nat) :
  (forall r, key (h r) = key r) ->
  find (fun x => Nat.eqb (key x) i) (map h l)
  = option_map h (find (fun x => Nat.eqb (key x) i) l).
Proof.
  intros Hk. induction l as [|x l IH]; simpl; [reflexivity|].
  rewrite Hk. destruct (Nat.eqb (key x) i); [reflexivity|exact IH].
Qed.

Lemma find_key_app_new (l : list R) (x : R) :
  ~ In (key x) (map key l) ->
  find (fun y => Nat.eqb (key y) (key x)) (l ++ [x]) = Some x.
Proof.
  intros H. induction l as [|y l IH]; simpl.
  - now rewrite Nat.eqb_refl.
  - destruct (Nat.eqb_spec (key y) (key x)) as [E|_].
    + exfalso. apply H. simpl. now left.
    + apply IH. intros Hin. apply H. simpl. now right.
Qed.

Lemma records_In (l : list R) (ids : list nat) (r : R) :
  In r (flat_map (fun i => option_to_list
                             (find (fun x => Nat.eqb (key x) i) l)) ids)
  <-> exists i, In i ids /\ find (fun x => Nat.eqb (key x) i) l = Some r.
Proof.
  rewrite in_flat_map. split.
  - intros (i & Hi & Hr). exists i. split; [exact Hi|].
    destruct (find _ l) as [y|]; simpl in Hr; [|contradiction].
    destruct Hr as [->|[]]. reflexivity.
  - intros (i & Hi & E). exists i. split; [exact Hi|].
    rewrite E. simpl. now left.
Qed.

Lemma records_nodup (l : list R) (ids : list nat) (r : R) :
  NoDup (map key l) -> In r l -> In (key r) ids ->
  In r (flat_map (fun i => option_to_list
                             (find (fun x => Nat.eqb (key x) i) l)) ids).
Proof.
  intros Hnd Hin Hid. apply records_In. exists (key r).
  split; [exact Hid|]. now apply find_key_nodup.
Qed.

Lemma records_sub (l : list R) (ids : list nat) (r : R) :
  In r (flat_map (fun i => option_to_list
                             (find (fun x => Nat.eqb (key x) i) l)) ids)
  -> In r l /\ In (key r) ids.
Proof.
  intros H. apply records_In in H. destruct H as (i & Hi & E).
  apply find_key_some in E. destruct E as [Hin <-]. auto.
Qed.

Lemma records_empty (l : list R) (ids : list nat) :
  flat_map (fun i => option_to_list
                       (find (fun x => Nat.eqb (key x) i) l)) ids = [] ->
  forall r, In r l -> mem (key r) ids = false.
Proof.
  intros H r Hin. destruct (mem (key r) ids) eqn:E; [|reflexivity].
  apply mem_In in E. exfalso.
  assert (Hi : In (key r) (map key l)) by now apply in_map.
  destruct (find (fun x => Nat.eqb (key x) (key r)) l) as [y|] eqn:F.
  - assert (Hy : In y (flat_map (fun i => option_to_list
                 (find (fun x => Nat.eqb (key x) i) l)) ids)).
    { apply records_In. eauto. }
    rewrite H in Hy. exact Hy.
  - apply find_key_none in F. auto.
Qed.

Lemma map_key_update (h : R -> R) (l : list R) :
  (forall r, key (h r) = key r) -> map key (map h l) = map key l.
Proof.
  intros Hk. rewrite map_map. apply map_ext. exact Hk.
Qed.

End Rows.

Lemma fresh_id_above (used : list nat) (i : nat) :
  In i used -> (i < Orm.fresh_id used)%nat.
Proof.
  unfold Orm.fresh_id. induction used as [|x l IH]; simpl; [intros []|].
  intros [->|H]; [lia|]. specialize (IH H). lia.
Qed.

Lemma fresh_id_new (used : list nat) : ~ In (Orm.fresh_id used) used.
Proof. intros H. apply fresh_id_above in H. lia. Qed.

(** ** Methods that write, and what they keep *)

Lemma preserves_ret {A} (P : Env -> Prop) (a : A) : preserves P (Orm.ret a).
Proof. intros env x env' [= _ <-] H. exact H. Qed.

Lemma preserves_bind {A B} (P : Env -> Prop) (m : Orm.M A)
  (k : A -> Orm.M B) :
  preserves P m -> (forall a, preserves P (k a)) ->
  preserves P (Orm.bind m k).
Proof.
  intros Hm Hk env b env' H HP. unfold Orm.bind in H.
  destruct (m env) as [[a|e] env1] eqn:E; [|discriminate].
  exact (Hk a env1 b env' H (Hm env a env1 E HP)).
Qed.

Lemma preserves_for_each_M {R} (P : Env -> Prop) (body : R -> Orm.M unit)
  (self : list R) :
  (forall r, preserves P (body r)) ->
  preserves P (Orm.for_each_M body self).
Proof.
  intros Hb. induction self as [|r rest IH]; simpl.
  - apply preserves_ret.
  - apply preserves_bind; [apply Hb|intros _; exact IH].
Qed.

Lemma transaction_ok {A} (m : Orm.M A) env a env' :
  Orm.transaction m env = (Ok a, env') <-> m env = (Ok a, env').
Proof.
  unfold Orm.transaction. destruct (m env) as [[x|e] env1]; split;
    intros H; try exact H; discriminate.
Qed.

(** A rejected request leaves the database as it was. *)
Lemma transaction_raise {A} (m : Orm.M A) env e env' :
  Orm.transaction m env = (Raise e, env') -> env' = env.
Proof.
  unfold Orm.transaction. destruct (m env) as [[x|e'] env1];
    [discriminate|]. now intros [= _ <-].
Qed.

Lemma validate_fields_ok {R F} (eqb : F -> F -> bool)
  (methods : list (list F * (list R -> result unit)))
  (touched : list F) (self : list R) :
  Orm.validate_fields eqb methods touched self = Ok tt
  <-> forall watched m, In (watched, m) methods ->
        existsb (fun f => existsb (eqb f) touched) watched = true ->
        m self = Ok tt.
Proof.
  unfold Orm.validate_fields. rewrite for_each_ok. split.
  - intros H watched m Hin Hw. specialize (H _ Hin). simpl in H.
    now rewrite Hw in H.
  - intros H [watched m] Hin. simpl.
    destruct (existsb _ watched) eqn:E; [|reflexivity]. eauto.
Qed.

Lemma validate_fields_raise {R F} (eqb : F -> F -> bool)
  (methods : list (list F * (list R -> result unit)))
  (touched : list F) (self : list R) (e : exn) :
  Orm.validate_fields eqb methods touched self = Raise e ->
  exists watched m, In (watched, m) methods /\ m self = Raise e.
Proof.
  unfold Orm.validate_fields. intros H. apply for_each_raise in H.
  destruct H as ([watched m] & Hin & Hb). simpl in Hb.
  destruct (existsb _ watched); [|discriminate]. eauto.
Qed.

(** The sprint validators raise validation errors only. *)
Lemma validate_sprints_raise today touched ids env e :
  Orm.validate_sprints today touched ids env = Raise e ->
  exists msg, e = ValidationError msg.
Proof.
  intros H. apply validate_fields_raise in H.
  destruct H as (watched & m & Hin & Hm).
  simpl in Hin.
  destruct Hin as [E|[E|[E|[E|[]]]]]; injection E as <- <-;
    apply for_each_raise in Hm; destruct Hm as (sp & _ & Hb).
  - apply check_duration_one_raise in Hb.
    destruct Hb as (_ & _ & _ & _ & _ & Hmsg). exact Hmsg.
  - unfold ProjectSprint.check_active_one in Hb.
    destruct (sprint_state_eqb _ _); [|discriminate].
    destruct (negb _); [|discriminate]. injection Hb as <-. eauto.
  - unfold ProjectSprint.check_past_one in Hb.
    destruct (Sprint.start_date sp); [|discriminate].
    destruct (Sprint.end_date sp); [|discriminate].
    destruct (_ && _); [|discriminate]. injection Hb as <-. eauto.
  - unfold ProjectSprint.check_tasks_match_one in Hb.
    destruct (Sprint.project_id sp); [|discriminate].
    destruct (ProjectSprint.nonempty (task_ids env sp)); [|discriminate].
    destruct (ProjectSprint.nonempty _); [|discriminate].
    injection Hb as <-. eauto.
Qed.

Lemma validate_tasks_raise touched ids env e :
  Orm.validate_tasks touched ids env = Raise e ->
  exists msg, e = ValidationError msg.
Proof.
  intros H. apply validate_fields_raise in H.
  destruct H as (watched & m & Hin & Hm).
  simpl in Hin. destruct Hin as [E|[]]. injection E as <- <-.
  apply for_each_raise in Hm. destruct Hm as (t & _ & Hb).
  unfold ProjectTask.check_one in Hb.
  destruct (task_sprint env t) as [sp|]; [|discriminate].
  destruct (ProjectTask.project_mismatch t sp).
  - injection Hb as <-. eauto.
  - destruct (ProjectTask.deadline_after_end t sp) as [[d x]|];
      [|discriminate]. injection Hb as <-. eauto.
Qed.

(** ** What a sprint write does to a row, and which validators it runs *)

Ltac by_keys vals :=
  destruct vals as [[?|] [?|] [?|] [?|] [?|] [?|]]; vm_compute;
  repeat split; intros; try congruence; try discriminate.

Lemma write_row_id today vals s :
  Sprint.id (Orm.write_row today vals s) = Sprint.id s.
Proof.
  unfold Orm.write_row. destruct (Orm.intersects _ _); reflexivity.
Qed.

Lemma write_row_project today vals s :
  Sprint.project_id (Orm.write_row today vals s)
  = Orm.or_else (Orm.v_project_id vals) (Sprint.project_id s).
Proof.
  unfold Orm.write_row. destruct (Orm.intersects _ _); reflexivity.
Qed.

Lemma write_row_end_date today vals s :
  Sprint.end_date (Orm.write_row today vals s)
  = Orm.or_else (Orm.v_end_date vals) (Sprint.end_date s).
Proof.
  unfold Orm.write_row. destruct (Orm.intersects _ _); reflexivity.
Qed.

Lemma write_row_start_date today vals s :
  Sprint.start_date (Orm.write_row today vals s)
  = Orm.or_else (Orm.v_start_date vals) (Sprint.start_date s).
Proof.
  unfold Orm.write_row. destruct (Orm.intersects _ _); reflexivity.
Qed.

Lemma write_row_state today vals s :
  Orm.intersects Orm.state_depends (Orm.sprint_keys vals) = false ->
  Sprint.state (Orm.write_row today vals s) = Sprint.state s.
Proof. unfold Orm.write_row. intros ->. reflexivity. Qed.

Lemma write_row_recomputed today vals s :
  Orm.intersects Orm.state_depends (Orm.sprint_keys vals) = true ->
  Orm.write_row today vals s
  = ProjectSprint._compute_state today (Orm.assign_sprint vals s).
Proof. unfold Orm.write_row. intros ->. reflexivity. Qed.

(** The validator of the single active sprint runs unless the write leaves
    both [state] and [project_id] alone. *)
Lemma watches_active vals :
  watches [Orm.f_state; Orm.f_project_id] (Orm.touched_by vals) = false ->
  Orm.intersects Orm.state_depends (Orm.sprint_keys vals) = false
  /\ Orm.v_project_id vals = None.
Proof. by_keys vals. Qed.

Lemma watches_tasks_match vals :
  watches [Orm.f_project_id; Orm.f_task_ids; Orm.f_state]
          (Orm.touched_by vals) = false ->
  Orm.v_project_id vals = None.
Proof. by_keys vals. Qed.

Lemma watches_duration vals :
  Orm.v_start_date vals <> None \/ Orm.v_end_date vals <> None ->
  watches [Orm.f_start_date; Orm.f_end_date] (Orm.touched_by vals) = true.
Proof.
  destruct vals as [[?|] [?|] [?|] [?|] [?|] [?|]]; simpl; intros H;
    try reflexivity; exfalso; intuition congruence.
Qed.

Lemma watches_past vals :
  Orm.v_start_date vals <> None \/ Orm.v_end_date vals <> None
  \/ Orm.v_state_mode vals <> None \/ Orm.v_state_manual vals <> None ->
  watches [Orm.f_start_date; Orm.f_end_date; Orm.f_state_mode;
           Orm.f_state_manual] (Orm.touched_by vals) = true.
Proof.
  destruct vals as [[?|] [?|] [?|] [?|] [?|] [?|]]; simpl; intros H;
    try reflexivity; exfalso; intuition congruence.
Qed.

Lemma watches_active_true vals :
  Orm.v_project_id vals <> None \/ Orm.v_start_date vals <> None
  \/ Orm.v_end_date vals <> None \/ Orm.v_state_mode vals <> None
  \/ Orm.v_state_manual vals <> None ->
  watches [Orm.f_state; Orm.f_project_id] (Orm.touched_by vals) = true.
Proof.
  destruct vals as [[?|] [?|] [?|] [?|] [?|] [?|]]; simpl; intros H;
    try reflexivity; exfalso; intuition congruence.
Qed.

Lemma write_sprint_ok today ids vals env env' :
  Orm.write_sprint today ids vals env = (Ok tt, env') ->
  env' = Orm.update_sprints (Orm.write_row today vals) ids env
  /\ Orm.validate_sprints today (Orm.touched_by vals) ids env' = Ok tt.
Proof.
  unfold Orm.write_sprint.
  destruct (_ && _); [discriminate|]. intros [= H <-]. auto.
Qed.

(** Without a required field cleared, a sprint write ends as its
    validators do. *)
Lemma write_sprint_validates today ids vals env :
  Orm.clears_required vals = false ->
  Orm.write_sprint today ids vals env
  = (Orm.validate_sprints today (Orm.touched_by vals) ids
       (Orm.update_sprints (Orm.write_row today vals) ids env),
     Orm.update_sprints (Orm.write_row today vals) ids env).
Proof. unfold Orm.write_sprint. intros ->. reflexivity. Qed.

Lemma validate_sprints_method today touched ids env watched m :
  Orm.validate_sprints today touched ids env = Ok tt ->
  In (watched, m) (Orm.sprint_constraints today env) ->
  watches watched touched = true ->
  m (sprint_records env ids) = Ok tt.
Proof.
  unfold Orm.validate_sprints. intros H Hin Hw.
  exact (proj1 (validate_fields_ok _ _ _ _) H watched m Hin Hw).
Qed.

Lemma sprints_update h ids env :
  sprints (Orm.update_sprints h ids env)
  = map (fun s => if mem (Sprint.id s) ids then h s else s) (sprints env).
Proof. reflexivity. Qed.

Lemma update_sprints_ids h ids env :
  (forall s, Sprint.id (h s) = Sprint.id s) ->
  map Sprint.id (sprints (Orm.update_sprints h ids env))
  = map Sprint.id (sprints env).
Proof.
  intros Hk. rewrite sprints_update. apply map_key_update.
  intros s. destruct (mem _ _); [apply Hk|reflexivity].
Qed.

Lemma update_sprints_In h ids env s' :
  In s' (sprints (Orm.update_sprints h ids env)) ->
  exists s, In s (sprints env)
    /\ ((mem (Sprint.id s) ids = true /\ s' = h s)
        \/ (mem (Sprint.id s) ids = false /\ s' = s)).
Proof.
  rewrite sprints_update, in_map_iff. intros (s & E & Hin).
  exists s. split; [exact Hin|].
  destruct (mem (Sprint.id s) ids); [left|right]; auto.
Qed.

(** ** The validators, read as facts about the rows they accept *)

Lemma check_active_accepts env self :
  ProjectSprint._check_if_project_already_has_active_sprint env self
  = Ok tt ->
  forall a b, In a self -> In b (sprints env) ->
    Sprint.state a = active -> Sprint.state b = active ->
    Sprint.project_id b = Sprint.project_id a ->
    Sprint.id b = Sprint.id a.
Proof.
  unfold ProjectSprint._check_if_project_already_has_active_sprint.
  rewrite for_each_ok. intros H a b Ha Hb Sa Sb Hp.
  specialize (H a Ha). unfold ProjectSprint.check_active_one in H.
  rewrite Sa in H. simpl in H.
  destruct (Nat.eqb_spec (ProjectSprint.other_active env a) 0) as [E|];
    [|discriminate].
  unfold ProjectSprint.other_active in E.
  apply length_zero_iff_nil in E.
  destruct (Nat.eqb_spec (Sprint.id b) (Sprint.id a)) as [|N]; [assumption|].
  assert (Hf : In b (filter (fun o =>
                 many2one_eqb (Sprint.project_id o) (Sprint.project_id a)
                 && sprint_state_eqb (Sprint.state o) active
                 && negb (Nat.eqb (Sprint.id o) (Sprint.id a)))
                (sprints env))).
  { apply filter_In. split; [exact Hb|].
    rewrite Hp, many2one_eqb_refl, Sb. simpl.
    apply Nat.eqb_neq in N. now rewrite N. }
  rewrite E in Hf. contradiction.
Qed.

Lemma check_active_rejects env self a b :
  In a self -> In b (sprints env) ->
  Sprint.state a = active -> Sprint.state b = active ->
  Sprint.project_id b = Sprint.project_id a ->
  Sprint.id b <> Sprint.id a ->
  is_validation_error
    (ProjectSprint._check_if_project_already_has_active_sprint env self).
Proof.
  intros Ha Hb Sa Sb Hp N.
  destruct (ProjectSprint._check_if_project_already_has_active_sprint
              env self) as [[]|e] eqn:E.
  - exfalso. apply N. exact (check_active_accepts _ _ E a b Ha Hb Sa Sb Hp).
  - apply for_each_raise in E. destruct E as (sp & _ & Hb').
    unfold ProjectSprint.check_active_one in Hb'.
    destruct (sprint_state_eqb _ _); [|discriminate].
    destruct (negb _); [|discriminate]. injection Hb' as <-.
    eexists. reflexivity.
Qed.

Lemma check_tasks_match_accepts env self :
  ProjectSprint._check_tasks_match_project env self = Ok tt ->
  forall s t q, In s self -> In t (tasks env) ->
    Task.sprint_id t = Some (Sprint.id s) ->
    Sprint.project_id s = Some q ->
    Task.project_id t = Some q.
Proof.
  unfold ProjectSprint._check_tasks_match_project.
  rewrite for_each_ok. intros H s t q Hs Ht Hl Hq.
  specialize (H s Hs). unfold ProjectSprint.check_tasks_match_one in H.
  rewrite Hq in H.
  assert (Hin : In t (task_ids env s)).
  { apply filter_In. split; [exact Ht|]. rewrite Hl.
    apply many2one_eqb_refl. }
  destruct (ProjectSprint.nonempty (task_ids env s)) eqn:N.
  2:{ apply nonempty_false in N. rewrite N in Hin. contradiction. }
  destruct (ProjectSprint.nonempty (filter _ (task_ids env s))) eqn:F;
    [discriminate|].
  apply nonempty_false in F.
  destruct (many2one_eqb (Task.project_id t) (Some q)) eqn:M.
  - now apply many2one_eqb_eq in M.
  - exfalso.
    assert (Hf : In t (filter (fun t0 => negb (many2one_eqb
                  (Task.project_id t0) (Some q))) (task_ids env s))).
    { apply filter_In. split; [exact Hin|]. now rewrite M. }
    rewrite F in Hf. contradiction.
Qed.

Lemma check_task_accepts env self :
  ProjectTask._check_sprint_deadline_and_project env self = Ok tt ->
  forall t s, In t self -> task_sprint env t = Some s ->
    (forall p q, Task.project_id t = Some p -> Sprint.project_id s = Some q ->
                 p = q)
    /\ (forall d e, Task.date_deadline t = Some d ->
                    Sprint.end_date s = Some e -> d <= e).
Proof.
  unfold ProjectTask._check_sprint_deadline_and_project.
  rewrite for_each_ok. intros H t s Ht Hs. specialize (H t Ht).
  unfold ProjectTask.check_one in H. rewrite Hs in H.
  unfold ProjectTask.project_mismatch, ProjectTask.deadline_after_end in H.
  split.
  - intros p q Hp Hq. rewrite Hp, Hq in H.
    destruct (Nat.eqb_spec p q); [assumption|discriminate].
  - intros d e Hd He. rewrite Hd, He in H.
    destruct (match Task.project_id t with
              | Some p => match Sprint.project_id s with
                          | Some q => negb (Nat.eqb p q)
                          | None => false
                          end
              | None => false
              end); [discriminate|].
    destruct (Z.gtb_spec d e); [discriminate|lia].
Qed.

(** The task validator raises as soon as one task of the recordset is in a
    sprint of another project or has a deadline after the sprint's end. *)
Lemma check_task_rejects env self t s :
  In t self -> task_sprint env t = Some s ->
  (exists p q, Task.project_id t = Some p /\ Sprint.project_id s = Some q
               /\ p <> q)
  \/ (exists d e, Task.date_deadline t = Some d /\ Sprint.end_date s = Some e
                  /\ d > e) ->
  is_validation_error
    (ProjectTask._check_sprint_deadline_and_project env self).
Proof.
  intros Ht Hs Hv.
  destruct (ProjectTask._check_sprint_deadline_and_project env self)
    as [[]|x] eqn:E.
  - exfalso. destruct (check_task_accepts _ _ E t s Ht Hs) as [Hp Hd].
    destruct Hv as [(p & q & Ep & Eq & N)|(d & e & Ed & Ee & N)].
    + apply N. exact (Hp p q Ep Eq).
    + specialize (Hd d e Ed Ee). lia.
  - apply for_each_raise in E. destruct E as (t0 & _ & Hb).
    unfold ProjectTask.check_one in Hb.
    destruct (task_sprint env t0) as [sp|]; [|discriminate].
    destruct (ProjectTask.project_mismatch t0 sp).
    + injection Hb as <-. eexists. reflexivity.
    + destruct (ProjectTask.deadline_after_end t0 sp) as [[d0 e0]|];
        [|discriminate]. injection Hb as <-. eexists. reflexivity.
Qed.

Lemma tasks_update h ids env :
  tasks (Orm.update_tasks h ids env)
  = map (fun t => if mem (Task.id t) ids then h t else t) (tasks env).
Proof. reflexivity. Qed.

Lemma update_tasks_ids h ids env :
  (forall t, Task.id (h t) = Task.id t) ->
  map Task.id (tasks (Orm.update_tasks h ids env))
  = map Task.id (tasks env).
Proof.
  intros Hk. rewrite tasks_update. apply map_key_update.
  intros t. destruct (mem _ _); [apply Hk|reflexivity].
Qed.

Lemma update_tasks_In h ids env t' :
  In t' (tasks (Orm.update_tasks h ids env)) ->
  exists t, In t (tasks env)
    /\ ((mem (Task.id t) ids = true /\ t' = h t)
        \/ (mem (Task.id t) ids = false /\ t' = t)).
Proof.
  rewrite tasks_update, in_map_iff. intros (t & E & Hin).
  exists t. split; [exact Hin|].
  destruct (mem (Task.id t) ids); [left|right]; auto.
Qed.

(** After an update every row is one the validators saw or an old one. *)
Lemma updated_sprints_seen h ids env s' :
  (forall s, Sprint.id (h s) = Sprint.id s) ->
  NoDup (map Sprint.id (sprints env)) ->
  In s' (sprints (Orm.update_sprints h ids env)) ->
  In s' (sprint_records (Orm.update_sprints h ids env) ids)
  \/ (In s' (sprints env) /\ mem (Sprint.id s') ids = false).
Proof.
  intros Hk Hnd Hin.
  destruct (update_sprints_In _ _ _ _ Hin) as (s & Hs & [[Hm ->]|[Hm ->]]).
  - left. unfold sprint_records, browse_sprint.
    apply records_nodup.
    + now rewrite update_sprints_ids.
    + exact Hin.
    + rewrite Hk. now apply mem_In.
  - right. auto.
Qed.

Lemma updated_tasks_seen h ids env t' :
  (forall t, Task.id (h t) = Task.id t) ->
  NoDup (map Task.id (tasks env)) ->
  In t' (tasks (Orm.update_tasks h ids env)) ->
  In t' (task_records (Orm.update_tasks h ids env) ids)
  \/ (In t' (tasks env) /\ mem (Task.id t') ids = false).
Proof.
  intros Hk Hnd Hin.
  destruct (update_tasks_In _ _ _ _ Hin) as (t & Ht & [[Hm ->]|[Hm ->]]).
  - left. unfold task_records, browse_task.
    apply records_nodup.
    + now rewrite update_tasks_ids.
    + exact Hin.
    + rewrite Hk. now apply mem_In.
  - right. auto.
Qed.

Lemma browse_sprint_In env s :
  NoDup (map Sprint.id (sprints env)) -> In s (sprints env) ->
  browse_sprint env (Sprint.id s) = Some s.
Proof. intros Hnd Hin. unfold browse_sprint. now apply find_key_nodup. Qed.

Lemma browse_sprint_some env i s :
  browse_sprint env i = Some s -> In s (sprints env) /\ Sprint.id s = i.
Proof. unfold browse_sprint. apply find_key_some. Qed.

Lemma browse_task_In env t :
  NoDup (map Task.id (tasks env)) -> In t (tasks env) ->
  browse_task env (Task.id t) = Some t.
Proof. intros Hnd Hin. unfold browse_task. now apply find_key_nodup. Qed.

Lemma browse_task_some env i t :
  browse_task env i = Some t -> In t (tasks env) /\ Task.id t = i.
Proof. unfold browse_task. apply find_key_some. Qed.

(** ** Primary and foreign keys are kept *)

Lemma wf_update_sprints h ids env :
  (forall s, Sprint.id (h s) = Sprint.id s) ->
  well_formed env -> well_formed (Orm.update_sprints h ids env).
Proof.
  intros Hk (Hs & Ht & Hfk). split; [|split].
  - now rewrite update_sprints_ids.
  - exact Ht.
  - intros t i Hin Hi. destruct (Hfk t i Hin Hi) as (s & Hsin & <-).
    exists (if mem (Sprint.id s) ids then h s else s). split.
    + rewrite sprints_update. apply in_map_iff. eauto.
    + destruct (mem _ _); [apply Hk|reflexivity].
Qed.

Lemma wf_write_sprint today ids vals :
  preserves well_formed (Orm.write_sprint today ids vals).
Proof.
  intros env [] env' H Hwf. apply write_sprint_ok in H.
  destruct H as [-> _]. apply wf_update_sprints; [|exact Hwf].
  apply write_row_id.
Qed.

Lemma wf_store_state today i st :
  preserves well_formed (Orm.store_state today i st).
Proof.
  intros env [] env' H Hwf. unfold Orm.store_state in H.
  injection H as _ <-. now apply wf_update_sprints.
Qed.

Lemma create_sprint_ok today vals env i env' :
  Orm.create_sprint today vals env = (Ok i, env') ->
  exists row,
    sprints env' = (sprints env ++ [row])%list /\ tasks env' = tasks env
    /\ Sprint.id row = i
    /\ i = Orm.fresh_id (map Sprint.id (sprints env))
    /\ Orm.validate_sprints today Orm.all_sprint_fields [i] env' = Ok tt.
Proof.
  unfold Orm.create_sprint.
  destruct (Orm.v_name vals) as [n|]; [|discriminate].
  destruct (Orm.v_project_id vals) as [[p|]|]; try discriminate.
  destruct (Orm.v_start_date vals) as [[s|]|]; try discriminate.
  destruct (Orm.v_end_date vals) as [[e|]|]; try discriminate.
  match goal with
  | |- context [Orm.validate_sprints ?t ?f ?l ?en] =>
      destruct (Orm.validate_sprints t f l en) as [[]|x] eqn:E
  end; [|discriminate].
  intros [= <- <-]. eexists. repeat split. exact E.
Qed.

Lemma wf_create_sprint today vals :
  preserves well_formed (Orm.create_sprint today vals).
Proof.
  intros env i env' H (Hs & Ht & Hfk). apply create_sprint_ok in H.
  destruct H as (row & Es & Et & Hid & Hi & _). split; [|split].
  - rewrite Es, map_app. simpl. apply NoDup_app.
    + exact Hs.
    + constructor; [intros []|constructor].
    + intros x Hx [E|[]]. rewrite <- E, Hid, Hi in Hx.
      exact (fresh_id_new _ Hx).
  - now rewrite Et.
  - rewrite Es, Et. intros t j Hin Hj.
    destruct (Hfk t j Hin Hj) as (s & Hsin & E).
    exists s. split; [apply in_or_app; now left|exact E].
Qed.

Lemma clear_sprint_id ids t : Task.id (Orm.clear_sprint ids t) = Task.id t.
Proof.
  unfold Orm.clear_sprint. destruct (Task.sprint_id t) as [i|];
    [|reflexivity]. destruct (mem i ids); reflexivity.
Qed.

Lemma clear_sprint_kept ids t i :
  Task.sprint_id (Orm.clear_sprint ids t) = Some i ->
  Orm.clear_sprint ids t = t /\ Task.sprint_id t = Some i
  /\ mem i ids = false.
Proof.
  unfold Orm.clear_sprint. destruct (Task.sprint_id t) as [j|] eqn:E.
  - destruct (mem j ids) eqn:M; simpl; [discriminate|].
    rewrite E. intros [= <-]. auto.
  - rewrite E. discriminate.
Qed.

Lemma NoDup_map_filter {A} (f : A -> nat) (p : A -> bool) (l : list A) :
  NoDup (map f l) -> NoDup (map f (filter p l)).
Proof.
  induction l as [|x l IH]; simpl; [auto|].
  intros H. inversion H as [|? ? Hx Hl]; subst.
  destruct (p x); simpl; [|auto].
  constructor; [|auto]. intros Hin. apply Hx.
  apply in_map_iff in Hin. destruct Hin as (y & E & Hy).
  apply filter_In in Hy. rewrite <- E. apply in_map. tauto.
Qed.

Lemma wf_unlink_sprint ids : preserves well_formed (Orm.unlink_sprint ids).
Proof.
  intros env [] env' H (Hs & Ht & Hfk). unfold Orm.unlink_sprint in H.
  injection H as <-. split; [|split]; simpl.
  - now apply NoDup_map_filter.
  - rewrite map_key_update; [exact Ht|apply clear_sprint_id].
  - intros t' i Hin Hi. apply in_map_iff in Hin.
    destruct Hin as (t & <- & Hin).
    apply clear_sprint_kept in Hi. destruct Hi as (_ & Hi & M).
    destruct (Hfk t i Hin Hi) as (s & Hsin & E).
    exists s. split; [|exact E].
    apply filter_In. split; [exact Hsin|]. now rewrite E, M.
Qed.

Lemma write_task_ok ids vals env env' :
  Orm.write_task ids vals env = (Ok tt, env') ->
  env' = Orm.update_tasks (Orm.assign_task vals) ids env
  /\ Orm.validate_tasks (Orm.task_keys vals) ids env' = Ok tt
  /\ (Orm.dangling_sprint env vals = false \/ task_records env ids = []).
Proof.
  unfold Orm.write_task.
  destruct (_ && _) eqn:D; [discriminate|]. intros [= H <-].
  split; [reflexivity|split; [exact H|]].
  apply andb_false_iff in D. destruct D as [D|D]; [now left|right].
  now apply nonempty_false.
Qed.

Lemma not_dangling env vals i :
  Orm.dangling_sprint env vals = false ->
  Orm.tv_sprint_id vals = Some (Some i) ->
  exists s, In s (sprints env) /\ Sprint.id s = i.
Proof.
  unfold Orm.dangling_sprint. intros H E. rewrite E in H.
  destruct (browse_sprint env i) as [s|] eqn:B; [|discriminate].
  exists s. now apply browse_sprint_some.
Qed.

Lemma wf_write_task ids vals : preserves well_formed (Orm.write_task ids vals).
Proof.
  intros env [] env' H (Hs & Ht & Hfk). apply write_task_ok in H.
  destruct H as (-> & _ & Hd). split; [|split].
  - exact Hs.
  - now rewrite update_tasks_ids.
  - intros t' i Hin Hi.
    destruct (update_tasks_In _ _ _ _ Hin) as (t & Htin & [[M ->]|[M ->]]).
    + simpl in Hi.
      destruct (Orm.tv_sprint_id vals) as [[j|]|] eqn:E; simpl in Hi.
      * injection Hi as <-. destruct Hd as [Hd|Hd].
        -- exact (not_dangling _ _ _ Hd E).
        -- unfold task_records, browse_task in Hd.
           rewrite (records_empty Task.id _ _ Hd t Htin) in M. discriminate.
      * discriminate.
      * exact (Hfk t i Htin Hi).
    + exact (Hfk t i Htin Hi).
Qed.

Lemma create_task_ok vals env i env' :
  Orm.create_task vals env = (Ok i, env') ->
  exists row,
    sprints env' = sprints env /\ tasks env' = (tasks env ++ [row])%list
    /\ Task.id row = i
    /\ i = Orm.fresh_id (map Task.id (tasks env))
    /\ Task.sprint_id row = Orm.or_else (Orm.tv_sprint_id vals) None
    /\ Orm.dangling_sprint env vals = false
    /\ Orm.validate_tasks Orm.all_task_fields [i] env' = Ok tt.
Proof.
  unfold Orm.create_task.
  destruct (Orm.dangling_sprint env vals) eqn:D; [discriminate|].
  match goal with
  | |- context [Orm.validate_tasks ?f ?l ?en] =>
      destruct (Orm.validate_tasks f l en) as [[]|x] eqn:E
  end; [|discriminate].
  intros [= <- <-]. eexists. repeat split. exact E.
Qed.

Lemma wf_create_task vals : preserves well_formed (Orm.create_task vals).
Proof.
  intros env i env' H (Hs & Ht & Hfk). apply create_task_ok in H.
  destruct H as (row & Es & Et & Hid & Hi & Hrow & Hd & _).
  split; [|split].
  - now rewrite Es.
  - rewrite Et, map_app. simpl. apply NoDup_app.
    + exact Ht.
    + constructor; [intros []|constructor].
    + intros x Hx [E|[]]. rewrite <- E, Hid, Hi in Hx.
      exact (fresh_id_new _ Hx).
  - rewrite Es, Et. intros t j Hin Hj. apply in_app_or in Hin.
    destruct Hin as [Hin|[<-|[]]]; [exact (Hfk t j Hin Hj)|].
    rewrite Hrow in Hj.
    destruct (Orm.tv_sprint_id vals) as [[k|]|] eqn:E; simpl in Hj;
      try discriminate.
    injection Hj as <-. exact (not_dangling _ _ _ Hd E).
Qed.

Lemma wf_unlink_task ids : preserves well_formed (Orm.unlink_task ids).
Proof.
  intros env [] env' H (Hs & Ht & Hfk). unfold Orm.unlink_task in H.
  injection H as <-. split; [|split]; simpl.
  - exact Hs.
  - now apply NoDup_map_filter.
  - intros t i Hin Hi. apply filter_In in Hin. destruct Hin as [Hin _].
    exact (Hfk t i Hin Hi).
Qed.

(** ** One active sprint per project: what each write keeps *)

Lemma one_active_seen env env' ids :
  (forall s', In s' (sprints env') ->
     In s' (sprint_records env' ids)
     \/ (In s' (sprints env) /\ mem (Sprint.id s') ids = false)) ->
  ProjectSprint._check_if_project_already_has_active_sprint
    env' (sprint_records env' ids) = Ok tt ->
  one_active_per_project env -> one_active_per_project env'.
Proof.
  intros Hseen Hc H a b Ha Hb Sa Sb Hp.
  destruct (Hseen a Ha) as [Ra|[Oa _]].
  - symmetry. exact (check_active_accepts _ _ Hc a b Ra Hb Sa Sb
                       (eq_sym Hp)).
  - destruct (Hseen b Hb) as [Rb|[Ob _]].
    + exact (check_active_accepts _ _ Hc b a Rb Ha Sb Sa Hp).
    + exact (H a b Oa Ob Sa Sb Hp).
Qed.

Lemma one_active_same env env' :
  (forall s', In s' (sprints env') ->
     exists s, In s (sprints env) /\ Sprint.id s = Sprint.id s'
       /\ Sprint.state s = Sprint.state s'
       /\ Sprint.project_id s = Sprint.project_id s') ->
  one_active_per_project env -> one_active_per_project env'.
Proof.
  intros Hs H a' b' Ha Hb Sa Sb Hp.
  destruct (Hs a' Ha) as (a & Ia & Ea & Eas & Eap).
  destruct (Hs b' Hb) as (b & Ib & Eb & Ebs & Ebp).
  rewrite <- Ea, <- Eb. apply H; congruence.
Qed.

Lemma one_active_write_sprint today ids vals env env' :
  Orm.write_sprint today ids vals env = (Ok tt, env') ->
  well_formed env -> one_active_per_project env ->
  one_active_per_project env'.
Proof.
  intros H (Hnd & _) HI. apply write_sprint_ok in H. destruct H as [E Hv].
  destruct (watches [Orm.f_state; Orm.f_project_id] (Orm.touched_by vals))
    eqn:W.
  - apply (one_active_seen env env' ids); [| |exact HI].
    + rewrite E. intros s' Hin.
      apply updated_sprints_seen; [apply write_row_id|exact Hnd|exact Hin].
    + refine (validate_sprints_method _ _ _ _
                [Orm.f_state; Orm.f_project_id] _ Hv _ W).
      simpl. right. left. reflexivity.
  - apply watches_active in W. destruct W as [Wd Wp].
    apply (one_active_same env env'); [|exact HI].
    rewrite E. intros s' Hin.
    destruct (update_sprints_In _ _ _ _ Hin) as (s & Hs & [[_ ->]|[_ ->]]).
    + exists s. split; [exact Hs|].
      rewrite write_row_id, write_row_project, Wp, (write_row_state _ _ _ Wd).
      auto.
    + exists s. auto.
Qed.

Lemma one_active_store_state today i st env env' :
  Orm.store_state today i st env = (Ok tt, env') ->
  well_formed env -> one_active_per_project env ->
  one_active_per_project env'.
Proof.
  unfold Orm.store_state. intros [= Hv <-] (Hnd & _) HI.
  apply (one_active_seen env _ [i]); [| |exact HI].
  - intros s' Hin. apply updated_sprints_seen; auto.
  - refine (validate_sprints_method _ _ _ _
              [Orm.f_state; Orm.f_project_id] _ Hv _ eq_refl).
    simpl. right. left. reflexivity.
Qed.

Lemma created_sprint_seen env env' row :
  sprints env' = (sprints env ++ [row])%list ->
  Sprint.id row = Orm.fresh_id (map Sprint.id (sprints env)) ->
  forall s', In s' (sprints env') ->
    In s' (sprint_records env' [Sprint.id row])
    \/ (In s' (sprints env) /\ mem (Sprint.id s') [Sprint.id row] = false).
Proof.
  intros Es Hid s' Hin. rewrite Es in Hin. apply in_app_or in Hin.
  destruct Hin as [Hin|[<-|[]]].
  - right. split; [exact Hin|]. simpl. rewrite orb_false_r.
    apply Nat.eqb_neq. intros E.
    apply (fresh_id_new (map Sprint.id (sprints env))).
    rewrite <- Hid, <- E. now apply in_map.
  - left. unfold sprint_records, browse_sprint. simpl.
    rewrite Es, find_key_app_new; [simpl; now left|].
    rewrite Hid. apply fresh_id_new.
Qed.

Lemma one_active_create_sprint today vals env i env' :
  Orm.create_sprint today vals env = (Ok i, env') ->
  well_formed env -> one_active_per_project env ->
  one_active_per_project env'.
Proof.
  intros H _ HI. apply create_sprint_ok in H.
  destruct H as (row & Es & _ & Hid & Hi & Hv). subst i.
  apply (one_active_seen env env' [Sprint.id row]); [| |exact HI].
  - now apply created_sprint_seen.
  - refine (validate_sprints_method _ _ _ _
              [Orm.f_state; Orm.f_project_id] _ Hv _ eq_refl).
    simpl. right. left. reflexivity.
Qed.

Lemma one_active_sub env env' :
  (forall s, In s (sprints env') -> In s (sprints env)) ->
  one_active_per_project env -> one_active_per_project env'.
Proof. intros Hs H a b Ha Hb. apply H; auto. Qed.

(** ** Tasks and their sprint: what each write keeps *)

Lemma match_same env env' :
  (forall t' s', In t' (tasks env') -> In s' (sprints env') ->
     Task.sprint_id t' = Some (Sprint.id s') ->
     exists t s, In t (tasks env) /\ In s (sprints env)
       /\ Task.sprint_id t = Some (Sprint.id s)
       /\ Task.project_id t = Task.project_id t'
       /\ Sprint.project_id s = Sprint.project_id s') ->
  task_project_matches env -> task_project_matches env'.
Proof.
  intros Hp H t' s' p q Ht Hs Hl Ep Eq.
  destruct (Hp t' s' Ht Hs Hl) as (t & s & It & Is & L & Pt & Ps).
  apply (H t s p q It Is L); congruence.
Qed.

Lemma deadline_same env env' :
  (forall t' s', In t' (tasks env') -> In s' (sprints env') ->
     Task.sprint_id t' = Some (Sprint.id s') ->
     exists t s, In t (tasks env) /\ In s (sprints env)
       /\ Task.sprint_id t = Some (Sprint.id s)
       /\ Task.date_deadline t = Task.date_deadline t'
       /\ Sprint.end_date s = Sprint.end_date s') ->
  deadline_within_sprint env -> deadline_within_sprint env'.
Proof.
  intros Hp H t' s' d e Ht Hs Hl Ed Ee.
  destruct (Hp t' s' Ht Hs Hl) as (t & s & It & Is & L & Dt & Es).
  apply (H t s d e It Is L); congruence.
Qed.

Lemma match_sprints_seen env env' ids :
  tasks env' = tasks env ->
  (forall s', In s' (sprints env') ->
     In s' (sprint_records env' ids)
     \/ (In s' (sprints env) /\ mem (Sprint.id s') ids = false)) ->
  ProjectSprint._check_tasks_match_project env' (sprint_records env' ids)
  = Ok tt ->
  task_project_matches env -> task_project_matches env'.
Proof.
  intros Et Hseen Hc H t s' p q Ht Hs Hl Ep Eq.
  destruct (Hseen s' Hs) as [R|[O _]].
  - pose proof (check_tasks_match_accepts _ _ Hc s' t q R Ht Hl Eq) as E.
    congruence.
  - rewrite Et in Ht. exact (H t s' p q Ht O Hl Ep Eq).
Qed.

Lemma tasks_seen_accept env env' ids :
  sprints env' = sprints env ->
  NoDup (map Sprint.id (sprints env)) ->
  (forall t', In t' (tasks env') ->
     In t' (task_records env' ids)
     \/ (In t' (tasks env) /\ mem (Task.id t') ids = false)) ->
  ProjectTask._check_sprint_deadline_and_project env' (task_records env' ids)
  = Ok tt ->
  (task_project_matches env -> task_project_matches env')
  /\ (deadline_within_sprint env -> deadline_within_sprint env').
Proof.
  intros Es Hnd Hseen Hc.
  assert (Hb : forall t s, In s (sprints env') ->
            Task.sprint_id t = Some (Sprint.id s) ->
            task_sprint env' t = Some s).
  { intros t s Hs Hl. unfold task_sprint. rewrite Hl.
    apply browse_sprint_In; [now rewrite Es|exact Hs]. }
  split.
  - intros H t s p q Ht Hs Hl Ep Eq.
    destruct (Hseen t Ht) as [R|[O _]].
    + exact (proj1 (check_task_accepts _ _ Hc t s R (Hb t s Hs Hl)) p q Ep Eq).
    + rewrite Es in Hs. exact (H t s p q O Hs Hl Ep Eq).
  - intros H t s d e Ht Hs Hl Ed Ee.
    destruct (Hseen t Ht) as [R|[O _]].
    + exact (proj2 (check_task_accepts _ _ Hc t s R (Hb t s Hs Hl)) d e Ed Ee).
    + rewrite Es in Hs. exact (H t s d e O Hs Hl Ed Ee).
Qed.

Lemma validate_tasks_method touched ids env :
  Orm.validate_tasks touched ids env = Ok tt ->
  watches_task touched = true ->
  ProjectTask._check_sprint_deadline_and_project env (task_records env ids)
  = Ok tt.
Proof.
  unfold Orm.validate_tasks. intros H W.
  refine (proj1 (validate_fields_ok _ _ _ _) H _ _ _ W).
  simpl. left. reflexivity.
Qed.

(** A task write with no key changes nothing. *)
Lemma assign_task_nothing vals :
  watches_task (Orm.task_keys vals) = false ->
  forall t, Orm.assign_task vals t = t.
Proof.
  destruct vals as [[?|] [?|] [?|]]; vm_compute; intros H; try discriminate.
  intros []. reflexivity.
Qed.

Lemma task_writes_keep ids vals env env' :
  Orm.write_task ids vals env = (Ok tt, env') ->
  well_formed env ->
  (task_project_matches env -> task_project_matches env')
  /\ (deadline_within_sprint env -> deadline_within_sprint env').
Proof.
  intros H (Hs & Ht & _). apply write_task_ok in H.
  destruct H as (E & Hv & _).
  destruct (watches_task (Orm.task_keys vals)) eqn:W.
  - apply (tasks_seen_accept env env' ids).
    + now rewrite E.
    + exact Hs.
    + rewrite E. intros t' Hin. now apply updated_tasks_seen.
    + now apply (validate_tasks_method _ _ _ Hv).
  - assert (Ee : env' = env).
    { rewrite E. destruct env as [ss ts]. unfold Orm.update_tasks. simpl.
      f_equal. rewrite <- (map_id ts) at 2. apply map_ext. intros t.
      rewrite (assign_task_nothing _ W). now destruct (mem _ _). }
    rewrite Ee. auto.
Qed.

Lemma created_task_seen env env' row :
  tasks env' = (tasks env ++ [row])%list ->
  Task.id row = Orm.fresh_id (map Task.id (tasks env)) ->
  forall t', In t' (tasks env') ->
    In t' (task_records env' [Task.id row])
    \/ (In t' (tasks env) /\ mem (Task.id t') [Task.id row] = false).
Proof.
  intros Et Hid t' Hin. rewrite Et in Hin. apply in_app_or in Hin.
  destruct Hin as [Hin|[<-|[]]].
  - right. split; [exact Hin|]. simpl. rewrite orb_false_r.
    apply Nat.eqb_neq. intros E.
    apply (fresh_id_new (map Task.id (tasks env))).
    rewrite <- Hid, <- E. now apply in_map.
  - left. unfold task_records, browse_task. simpl.
    rewrite Et, find_key_app_new; [simpl; now left|].
    rewrite Hid. apply fresh_id_new.
Qed.

Lemma task_creates_keep vals env i env' :
  Orm.create_task vals env = (Ok i, env') ->
  well_formed env ->
  (task_project_matches env -> task_project_matches env')
  /\ (deadline_within_sprint env -> deadline_within_sprint env').
Proof.
  intros H (Hs & _ & _). apply create_task_ok in H.
  destruct H as (row & Es & Et & Hid & Hi & _ & _ & Hv). subst i.
  apply (tasks_seen_accept env env' [Task.id row]).
  - exact Es.
  - exact Hs.
  - now apply created_task_seen.
  - now apply (validate_tasks_method _ _ _ Hv).
Qed.

Lemma task_unlinks_keep ids env env' :
  Orm.unlink_task ids env = (Ok tt, env') ->
  (task_project_matches env -> task_project_matches env')
  /\ (deadline_within_sprint env -> deadline_within_sprint env').
Proof.
  unfold Orm.unlink_task. intros [= <-]. split; intros H.
  - apply (match_same env); [|exact H]. simpl. intros t s Ht Hs Hl.
    apply filter_In in Ht. exists t, s. tauto.
  - apply (deadline_same env); [|exact H]. simpl. intros t s Ht Hs Hl.
    apply filter_In in Ht. exists t, s. tauto.
Qed.

Lemma sprint_unlinks_keep ids env env' :
  Orm.unlink_sprint ids env = (Ok tt, env') ->
  (one_active_per_project env -> one_active_per_project env')
  /\ (task_project_matches env -> task_project_matches env')
  /\ (deadline_within_sprint env -> deadline_within_sprint env').
Proof.
  unfold Orm.unlink_sprint. intros [= <-].
  assert (K : forall t' s', In t' (map (Orm.clear_sprint ids) (tasks env)) ->
            In s' (filter (fun s => negb (mem (Sprint.id s) ids))
                          (sprints env)) ->
            Task.sprint_id t' = Some (Sprint.id s') ->
            In t' (tasks env) /\ In s' (sprints env)).
  { intros t' s' Ht Hs Hl. apply in_map_iff in Ht.
    destruct Ht as (t & <- & Ht). apply filter_In in Hs.
    apply clear_sprint_kept in Hl. destruct Hl as (-> & _ & _). tauto. }
  split; [|split]; intros H.
  - apply (one_active_sub env); [|exact H]. simpl. intros s Hs.
    apply filter_In in Hs. tauto.
  - apply (match_same env); [|exact H]. simpl. intros t s Ht Hs Hl.
    destruct (K t s Ht Hs Hl). exists t, s. tauto.
  - apply (deadline_same env); [|exact H]. simpl. intros t s Ht Hs Hl.
    destruct (K t s Ht Hs Hl). exists t, s. tauto.
Qed.

Lemma sprint_write_keeps_match today ids vals env env' :
  Orm.write_sprint today ids vals env = (Ok tt, env') ->
  well_formed env -> task_project_matches env -> task_project_matches env'.
Proof.
  intros H (Hnd & _) HI. apply write_sprint_ok in H. destruct H as [E Hv].
  destruct (watches [Orm.f_project_id; Orm.f_task_ids; Orm.f_state]
                    (Orm.touched_by vals)) eqn:W.
  - apply (match_sprints_seen env env' ids); [| | |exact HI].
    + now rewrite E.
    + rewrite E. intros s' Hin.
      apply updated_sprints_seen; [apply write_row_id|exact Hnd|exact Hin].
    + refine (validate_sprints_method _ _ _ _
                [Orm.f_project_id; Orm.f_task_ids; Orm.f_state] _ Hv _ W).
      simpl. do 3 right. left. reflexivity.
  - apply watches_tasks_match in W.
    apply (match_same env env'); [|exact HI].
    rewrite E. intros t s' Ht Hin Hl. simpl in Ht.
    destruct (update_sprints_In _ _ _ _ Hin) as (s & Hs & [[_ ->]|[_ ->]]).
    + exists t, s. rewrite write_row_id in Hl.
      rewrite write_row_project, W. auto.
    + exists t, s. auto.
Qed.

Lemma sprint_write_keeps_deadline today ids vals env env' :
  Orm.v_end_date vals = None ->
  Orm.write_sprint today ids vals env = (Ok tt, env') ->
  deadline_within_sprint env -> deadline_within_sprint env'.
Proof.
  intros He H HI. apply write_sprint_ok in H. destruct H as [E _].
  apply (deadline_same env env'); [|exact HI].
  rewrite E. intros t s' Ht Hin Hl. simpl in Ht.
  destruct (update_sprints_In _ _ _ _ Hin) as (s & Hs & [[_ ->]|[_ ->]]).
  - exists t, s. rewrite write_row_id in Hl.
    rewrite write_row_end_date, He. auto.
  - exists t, s. auto.
Qed.

Lemma store_state_keeps today i st env env' :
  Orm.store_state today i st env = (Ok tt, env') ->
  (task_project_matches env -> task_project_matches env')
  /\ (deadline_within_sprint env -> deadline_within_sprint env').
Proof.
  unfold Orm.store_state. intros [= _ <-]. split; intros HI.
  - apply (match_same env); [|exact HI]. intros t s' Ht Hin Hl.
    simpl in Ht.
    destruct (update_sprints_In _ _ _ _ Hin) as (s & Hs & [[_ ->]|[_ ->]]);
      exists t, s; auto.
  - apply (deadline_same env); [|exact HI]. intros t s' Ht Hin Hl.
    simpl in Ht.
    destruct (update_sprints_In _ _ _ _ Hin) as (s & Hs & [[_ ->]|[_ ->]]);
      exists t, s; auto.
Qed.

Lemma sprint_create_keeps today vals env i env' :
  Orm.create_sprint today vals env = (Ok i, env') ->
  well_formed env ->
  (task_project_matches env -> task_project_matches env')
  /\ (deadline_within_sprint env -> deadline_within_sprint env').
Proof.
  intros H (_ & _ & Hfk). apply create_sprint_ok in H.
  destruct H as (row & Es & Et & Hid & Hi & Hv). subst i.
  split; intros HI.
  - apply (match_sprints_seen env env' [Sprint.id row]); [exact Et| |
      |exact HI].
    + now apply created_sprint_seen.
    + refine (validate_sprints_method _ _ _ _
                [Orm.f_project_id; Orm.f_task_ids; Orm.f_state] _ Hv _
                eq_refl).
      simpl. do 3 right. left. reflexivity.
  - apply (deadline_same env env'); [|exact HI].
    rewrite Es, Et. intros t s' Ht Hin Hl. apply in_app_or in Hin.
    destruct Hin as [Hin|[<-|[]]].
    + exists t, s'. auto.
    + exfalso. destruct (Hfk t _ Ht Hl) as (s & Hs & E).
      apply (fresh_id_new (map Sprint.id (sprints env))).
      rewrite <- Hi, <- E. now apply in_map.
Qed.

(** ** From the record layer to the requests *)

Section Requests.
Variable P : Env -> Prop.
Variable today : date.
Variable allowed : Orm.sprint_vals -> Prop.
Hypothesis P_write_sprint :
  forall ids vals, allowed vals ->
    preserves P (Orm.write_sprint today ids vals).
Hypothesis P_store_state :
  forall i st, preserves P (Orm.store_state today i st).
Hypothesis P_create_sprint :
  forall vals, preserves P (Orm.create_sprint today vals).
Hypothesis P_unlink_sprint : forall ids, preserves P (Orm.unlink_sprint ids).
Hypothesis P_write_task :
  forall ids vals, preserves P (Orm.write_task ids vals).
Hypothesis P_create_task : forall vals, preserves P (Orm.create_task vals).
Hypothesis P_unlink_task : forall ids, preserves P (Orm.unlink_task ids).
Hypothesis allowed_mode :
  forall m st, allowed (ProjectSprintWrite.mode_vals m st).

Lemma write_preserves ids vals :
  allowed vals -> preserves P (ProjectSprintWrite.write today ids vals).
Proof.
  intros Ha env a env' H HP. unfold ProjectSprintWrite.write in H.
  destruct (ProjectSprintWrite.has_project_key vals).
  - destruct (ProjectSprint.write_guard _ _); [|discriminate].
    exact (P_write_sprint ids vals Ha env a env' H HP).
  - exact (P_write_sprint ids vals Ha env a env' H HP).
Qed.

Lemma compute_state_call_preserves ids :
  preserves P (ProjectSprintWrite.compute_state_call today ids).
Proof.
  apply preserves_for_each_M. intros i env a env' H HP.
  destruct (browse_sprint env i) as [s|].
  - exact (P_store_state _ _ env a env' H HP).
  - injection H as _ <-. exact HP.
Qed.

Lemma inverse_preserves ids selected :
  preserves P (ProjectSprintWrite._inverse_task_select_ids ids selected).
Proof.
  apply preserves_for_each_M. intros i env a env' H HP.
  unfold ProjectSprintWrite.inverse_one in H.
  destruct (browse_sprint env i) as [s|].
  - destruct (Sprint.project_id s); [|discriminate].
    destruct (ProjectSprint.nonempty _); [discriminate|].
    revert H HP. apply preserves_bind; [apply P_write_task|].
    intros _. apply P_write_task.
  - injection H as _ <-. exact HP.
Qed.

Lemma perform_preserves (m : mutation) :
  match m with SprintWrite _ vals => allowed vals | _ => True end ->
  preserves P (perform today m).
Proof.
  destruct m; simpl; intros Ha.
  - apply preserves_bind; [apply P_create_sprint|].
    intros _. apply preserves_ret.
  - now apply write_preserves.
  - apply P_unlink_sprint.
  - apply inverse_preserves.
  - apply preserves_bind; [apply write_preserves, allowed_mode|].
    intros _. apply compute_state_call_preserves.
  - apply write_preserves, allowed_mode.
  - apply write_preserves, allowed_mode.
  - apply write_preserves, allowed_mode.
  - apply preserves_bind; [apply P_create_task|].
    intros _. apply preserves_ret.
  - apply P_write_task.
  - apply P_unlink_task.
Qed.

End Requests.

Lemma same_sprints_one_active env env' :
  sprints env' = sprints env ->
  one_active_per_project env -> one_active_per_project env'.
Proof. intros E. apply one_active_sub. now rewrite E. Qed.

Section Invariant.
Variable I : Env -> Prop.
Variable today : date.
Variable allowed : Orm.sprint_vals -> Prop.
Hypothesis I_write_sprint :
  forall ids vals env env', allowed vals ->
    Orm.write_sprint today ids vals env = (Ok tt, env') ->
    well_formed env -> I env -> I env'.
Hypothesis I_store_state :
  forall i st env env',
    Orm.store_state today i st env = (Ok tt, env') ->
    well_formed env -> I env -> I env'.
Hypothesis I_create_sprint :
  forall vals env i env',
    Orm.create_sprint today vals env = (Ok i, env') ->
    well_formed env -> I env -> I env'.
Hypothesis I_unlink_sprint :
  forall ids env env',
    Orm.unlink_sprint ids env = (Ok tt, env') ->
    well_formed env -> I env -> I env'.
Hypothesis I_write_task :
  forall ids vals env env',
    Orm.write_task ids vals env = (Ok tt, env') ->
    well_formed env -> I env -> I env'.
Hypothesis I_create_task :
  forall vals env i env',
    Orm.create_task vals env = (Ok i, env') ->
    well_formed env -> I env -> I env'.
Hypothesis I_unlink_task :
  forall ids env env',
    Orm.unlink_task ids env = (Ok tt, env') ->
    well_formed env -> I env -> I env'.
Hypothesis allowed_mode :
  forall m st, allowed (ProjectSprintWrite.mode_vals m st).

Lemma perform_keeps (m : mutation) :
  match m with SprintWrite _ vals => allowed vals | _ => True end ->
  preserves (with_keys I) (perform today m).
Proof.
  apply (perform_preserves (with_keys I) today allowed).
  - intros ids vals Ha env [] env' H (Hwf & HI).
    split; [exact (wf_write_sprint _ _ _ _ _ _ H Hwf)|eauto].
  - intros i st env [] env' H (Hwf & HI).
    split; [exact (wf_store_state _ _ _ _ _ _ H Hwf)|eauto].
  - intros vals env i env' H (Hwf & HI).
    split; [exact (wf_create_sprint _ _ _ _ _ H Hwf)|eauto].
  - intros ids env [] env' H (Hwf & HI).
    split; [exact (wf_unlink_sprint _ _ _ _ H Hwf)|eauto].
  - intros ids vals env [] env' H (Hwf & HI).
    split; [exact (wf_write_task _ _ _ _ _ H Hwf)|eauto].
  - intros vals env i env' H (Hwf & HI).
    split; [exact (wf_create_task _ _ _ _ H Hwf)|eauto].
  - intros ids env [] env' H (Hwf & HI).
    split; [exact (wf_unlink_task _ _ _ _ H Hwf)|eauto].
  - exact allowed_mode.
Qed.

End Invariant.

(** Every request keeps the single active sprint of a project. *)
Lemma perform_one_active today m :
  preserves (with_keys one_active_per_project) (perform today m).
Proof.
  apply (perform_keeps one_active_per_project today (fun _ => True)).
  - intros ids vals env env' _. apply one_active_write_sprint.
  - intros i st env env'. apply one_active_store_state.
  - intros vals env i env'. apply one_active_create_sprint.
  - intros ids env env' H _. exact (proj1 (sprint_unlinks_keep _ _ _ H)).
  - intros ids vals env env' H _. apply write_task_ok in H.
    destruct H as (-> & _). now apply same_sprints_one_active.
  - intros vals env i env' H _.
    pose proof (create_task_ok _ _ _ _ H) as (row & Es & _).
    now apply same_sprints_one_active.
  - intros ids env env' H _. unfold Orm.unlink_task in H.
    injection H as <-. now apply same_sprints_one_active.
  - auto.
  - now destruct m.
Qed.

(** Every request keeps a task in a sprint within the sprint's project. *)
Lemma perform_project_matches today m :
  preserves (with_keys task_project_matches) (perform today m).
Proof.
  apply (perform_keeps task_project_matches today (fun _ => True)).
  - intros ids vals env env' _. apply sprint_write_keeps_match.
  - intros i st env env' H _. exact (proj1 (store_state_keeps _ _ _ _ _ H)).
  - intros vals env i env' H Hwf.
    exact (proj1 (sprint_create_keeps _ _ _ _ _ H Hwf)).
  - intros ids env env' H _.
    exact (proj1 (proj2 (sprint_unlinks_keep _ _ _ H))).
  - intros ids vals env env' H Hwf.
    exact (proj1 (task_writes_keep _ _ _ _ H Hwf)).
  - intros vals env i env' H Hwf.
    exact (proj1 (task_creates_keep _ _ _ _ H Hwf)).
  - intros ids env env' H _. exact (proj1 (task_unlinks_keep _ _ _ H)).
  - auto.
  - now destruct m.
Qed.

(** Every request but a sprint write that carries [end_date] keeps the
    deadlines within the sprints. *)
Lemma perform_deadlines today m :
  writes_end_date m = false ->
  preserves (with_keys deadline_within_sprint) (perform today m).
Proof.
  intros Hm.
  apply (perform_keeps deadline_within_sprint today
           (fun vals => Orm.v_end_date vals = None)).
  - intros ids vals env env' He H _.
    exact (sprint_write_keeps_deadline _ _ _ _ _ He H).
  - intros i st env env' H _. exact (proj2 (store_state_keeps _ _ _ _ _ H)).
  - intros vals env i env' H Hwf.
    exact (proj2 (sprint_create_keeps _ _ _ _ _ H Hwf)).
  - intros ids env env' H _.
    exact (proj2 (proj2 (sprint_unlinks_keep _ _ _ H))).
  - intros ids vals env env' H Hwf.
    exact (proj2 (task_writes_keep _ _ _ _ H Hwf)).
  - intros vals env i env' H Hwf.
    exact (proj2 (task_creates_keep _ _ _ _ H Hwf)).
  - intros ids env env' H _. exact (proj2 (task_unlinks_keep _ _ _ H)).
  - reflexivity.
  - destruct m; simpl in *; auto.
    destruct (Orm.v_end_date vals); [discriminate|reflexivity].
Qed.

(** ** Small databases *)

Ltac rows :=
  repeat match goal with
         | H : _ \/ _ |- _ => destruct H as [H|H]; [subst|]
         | H : False |- _ => destruct H
         end.

Ltac no_dup :=
  simpl; repeat (apply NoDup_cons; [simpl; intuition discriminate|]);
  apply NoDup_nil.

Ltac keys_hold :=
  split; [|split];
  [ no_dup
  | no_dup
  | intros ? ? Hrow Href; simpl in Hrow;
    repeat (destruct Hrow as [Hrow|Hrow]; [subst|]); try contradiction;
    simpl in Href; try discriminate Href; injection Href as <-;
    eexists; (split; [simpl; auto 10|reflexivity]) ].

(** ** Writes on one row *)

Lemma browse_task_update h ids env i :
  (forall t, Task.id (h t) = Task.id t) ->
  browse_task (Orm.update_tasks h ids env) i
  = option_map (fun t => if mem (Task.id t) ids then h t else t)
               (browse_task env i).
Proof.
  intros Hk. unfold browse_task. rewrite tasks_update.
  apply find_key_map. intros t. destruct (mem _ _); [apply Hk|reflexivity].
Qed.

Lemma browse_sprint_update h ids env i :
  (forall s, Sprint.id (h s) = Sprint.id s) ->
  browse_sprint (Orm.update_sprints h ids env) i
  = option_map (fun s => if mem (Sprint.id s) ids then h s else s)
               (browse_sprint env i).
Proof.
  intros Hk. unfold browse_sprint. rewrite sprints_update.
  apply find_key_map. intros s. destruct (mem _ _); [apply Hk|reflexivity].
Qed.

Lemma mem_single i : mem i [i] = true.
Proof. simpl. now rewrite Nat.eqb_refl. Qed.

Lemma task_records_single h env i t :
  (forall x, Task.id (h x) = Task.id x) ->
  browse_task env i = Some t ->
  task_records (Orm.update_tasks h [i] env) [i] = [h t].
Proof.
  intros Hk Bt. unfold task_records. cbn [flat_map].
  rewrite browse_task_update by exact Hk. rewrite Bt.
  destruct (browse_task_some _ _ _ Bt) as [_ <-].
  cbn [option_map option_to_list]. rewrite mem_single. reflexivity.
Qed.

(** A write on one task that the validator refuses. *)
Lemma write_task_rejected i vals env t e :
  browse_task env i = Some t ->
  Orm.dangling_sprint env vals = false ->
  watches_task (Orm.task_keys vals) = true ->
  ProjectTask.check_one (Orm.update_tasks (Orm.assign_task vals) [i] env)
                        (Orm.assign_task vals t) = Raise e ->
  Orm.write_task [i] vals env
  = (Raise e, Orm.update_tasks (Orm.assign_task vals) [i] env).
Proof.
  intros Bt Hd W Hc. unfold Orm.write_task. rewrite Hd. cbn [andb].
  unfold Orm.validate_tasks, Orm.validate_fields, Orm.task_constraints.
  cbn [for_each fst snd]. unfold watches_task in W. rewrite W.
  rewrite (task_records_single (Orm.assign_task vals) env i t (fun _ => eq_refl) Bt).
  unfold ProjectTask._check_sprint_deadline_and_project.
  cbn [for_each]. rewrite Hc. reflexivity.
Qed.

(** ** Requests that a validator refuses *)

Lemma request_raise today m env e env1 :
  perform today m env = (Raise e, env1) ->
  request today m env = (Raise e, env).
Proof. unfold request, Orm.transaction. now intros ->. Qed.

Lemma write_guard_raise env self e :
  ProjectSprint.write_guard env self = Raise e ->
  exists msg, e = ValidationError msg.
Proof.
  unfold ProjectSprint.write_guard. apply for_each_validation.
  intros sp x. unfold ProjectSprint.write_guard_one.
  destruct (0 <? _)%nat; [intros [= <-]; eauto|].
  destruct (_ || _); [intros [= <-]; eauto|discriminate].
Qed.

(** A sprint write that touches a field a validator watches, and leaves a
    row the validator refuses, is refused. *)
Lemma write_rejected_by today ids vals env watched m :
  Orm.clears_required vals = false ->
  In (watched, m)
     (Orm.sprint_constraints today
        (Orm.update_sprints (Orm.write_row today vals) ids env)) ->
  watches watched (Orm.touched_by vals) = true ->
  (exists e, m (sprint_records
                  (Orm.update_sprints (Orm.write_row today vals) ids env)
                  ids) = Raise e) ->
  exists msg,
    request today (SprintWrite ids vals) env
    = (Raise (ValidationError msg), env).
Proof.
  intros Hr Hin W (e & He).
  assert (Hw : exists msg env1,
             Orm.write_sprint today ids vals env
             = (Raise (ValidationError msg), env1)).
  { rewrite (write_sprint_validates _ _ _ _ Hr).
    destruct (Orm.validate_sprints _ _ _ _) as [[]|x] eqn:V.
    - rewrite (validate_sprints_method _ _ _ _ _ _ V Hin W) in He.
      discriminate.
    - destruct (validate_sprints_raise _ _ _ _ _ V) as (msg & ->). eauto. }
  destruct Hw as (msg & env1 & Hw).
  assert (Hp : exists msg' env2,
             perform today (SprintWrite ids vals) env
             = (Raise (ValidationError msg'), env2)).
  { simpl. unfold ProjectSprintWrite.write.
    destruct (ProjectSprintWrite.has_project_key vals); [|eauto].
    destruct (ProjectSprint.write_guard _ _) as [[]|x] eqn:G; [eauto|].
    destruct (write_guard_raise _ _ _ G) as (msg' & ->). eauto. }
  destruct Hp as (msg' & env2 & Hp). exists msg'.
  exact (request_raise _ _ _ _ _ Hp).
Qed.

Lemma create_sprint_rejected_by today vals env n p s e watched m :
  Orm.v_name vals = Some n -> Orm.v_project_id vals = Some (Some p) ->
  Orm.v_start_date vals = Some (Some s) ->
  Orm.v_end_date vals = Some (Some e) ->
  let row :=
    ProjectSprint._compute_state today
      (Sprint.mk (Orm.fresh_id (map Sprint.id (sprints env))) n (Some p)
                 (Some s) (Some e)
                 (Orm.or_else (Orm.v_state_mode vals) auto)
                 (Orm.or_else (Orm.v_state_manual vals) planned)
                 planned) in
  let env1 := mkEnv (sprints env ++ [row]) (tasks env) in
  In (watched, m) (Orm.sprint_constraints today env1) ->
  watches watched Orm.all_sprint_fields = true ->
  (exists x, m [row] = Raise x) ->
  exists msg,
    request today (SprintCreate vals) env
    = (Raise (ValidationError msg), env).
Proof.
  intros En Ep Es Ee row env1 Hin W (x & Hx).
  assert (Hrec : sprint_records env1 [Sprint.id row] = [row]).
  { unfold sprint_records, browse_sprint. cbn [flat_map].
    unfold env1 at 1. cbn [sprints].
    rewrite (find_key_app_new Sprint.id (sprints env) row);
      [reflexivity|apply fresh_id_new]. }
  assert (Hc : exists msg,
             Orm.create_sprint today vals env
             = (Raise (ValidationError msg), env1)).
  { unfold Orm.create_sprint. rewrite En, Ep, Es, Ee. fold row. fold env1.
    change (Orm.fresh_id (map Sprint.id (sprints env))) with (Sprint.id row).
    destruct (Orm.validate_sprints _ _ _ _) as [[]|y] eqn:V.
    - pose proof (validate_sprints_method _ _ _ _ _ _ V Hin W) as K.
      rewrite Hrec, Hx in K. discriminate.
    - destruct (validate_sprints_raise _ _ _ _ _ V) as (msg & ->). eauto. }
  destruct Hc as (msg & Hc). exists msg.
  apply (request_raise _ _ _ _ env1). simpl. unfold Orm.bind. now rewrite Hc.
Qed.

(** ** The validators on a recordset *)

Lemma check_duration_rejects self sp s e :
  In sp self -> Sprint.start_date sp = Some s -> Sprint.end_date sp = Some e ->
  e < s \/ days_between e s + 1 > 28 ->
  exists x, ProjectSprint._check_duration_and_order self = Raise x.
Proof.
  intros Hin Hs He Hv.
  destruct (check_duration_one_spec sp s e Hs He) as (H1 & H2 & _).
  assert (Hr : exists x, ProjectSprint.check_duration_one sp = Raise x).
  { destruct (Z.lt_ge_cases e s) as [Hlt|Hge]; [eauto|].
    eexists. apply H2; lia. }
  destruct Hr as (x & Hx).
  exact (for_each_not_ok _ _ _ _ Hin Hx).
Qed.

(** ** The validator of past manual states on one sprint *)

Lemma check_past_one_spec today sp s e :
  Sprint.start_date sp = Some s -> Sprint.end_date sp = Some e ->
  (Sprint.state_mode sp = manual /\ e < today
   /\ (Sprint.state_manual sp = planned \/ Sprint.state_manual sp = active)
   -> ProjectSprint.check_past_one today sp
      = Raise (ValidationError ProjectSprint.msg_past))
  /\ (~ (Sprint.state_mode sp = manual /\ e < today
         /\ (Sprint.state_manual sp = planned
             \/ Sprint.state_manual sp = active))
      -> ProjectSprint.check_past_one today sp = Ok tt).
Proof.
  intros Hs He. unfold ProjectSprint.check_past_one. rewrite Hs, He.
  destruct (Sprint.state_mode sp), (Sprint.state_manual sp),
    (Z.ltb_spec e today); simpl; split; intros K; try reflexivity;
    try (exfalso; apply K; repeat split; auto; lia);
    try (destruct K as (K1 & K2 & [K3|K3]); (discriminate || lia)).
Qed.

Lemma check_past_one_ok today sp :
  Sprint.state_mode sp = auto
  \/ (exists e, Sprint.end_date sp = Some e /\ today <= e)
  \/ Sprint.state_manual sp = done ->
  ProjectSprint.check_past_one today sp = Ok tt.
Proof.
  unfold ProjectSprint.check_past_one.
  destruct (Sprint.start_date sp) as [s|]; [|reflexivity].
  destruct (Sprint.end_date sp) as [e|]; [|reflexivity].
  intros [->|[(e' & [= <-] & H)| ->]]; simpl.
  - reflexivity.
  - destruct (Z.ltb_spec e today); [lia|]. now rewrite andb_false_r.
  - now rewrite andb_false_r.
Qed.

(** ** The guard of [write] *)

Lemma write_guard_one_spec env sp :
  ((0 < ProjectSprint.count_tasks env sp)%nat ->
   ProjectSprint.write_guard_one env sp
   = Raise (ValidationError ProjectSprint.msg_has_tasks))
  /\ (ProjectSprint.count_tasks env sp = 0%nat ->
      Sprint.state sp = active \/ Sprint.state sp = done ->
      ProjectSprint.write_guard_one env sp
      = Raise (ValidationError ProjectSprint.msg_active_done))
  /\ (ProjectSprint.count_tasks env sp = 0%nat ->
      Sprint.state sp = planned ->
      ProjectSprint.write_guard_one env sp = Ok tt).
Proof.
  unfold ProjectSprint.write_guard_one. repeat split.
  - intros H. apply Nat.ltb_lt in H. now rewrite H.
  - intros -> [-> | ->]; reflexivity.
  - intros -> ->. reflexivity.
Qed.

Lemma write_guard_rejects env self sp :
  In sp self ->
  (0 < ProjectSprint.count_tasks env sp)%nat
  \/ Sprint.state sp = active \/ Sprint.state sp = done ->
  exists msg,
    ProjectSprint.write_guard env self = Raise (ValidationError msg)
    /\ (msg = ProjectSprint.msg_has_tasks
        \/ msg = ProjectSprint.msg_active_done).
Proof.
  intros Hin Hc.
  assert (Hr : exists x, ProjectSprint.write_guard_one env sp = Raise x).
  { destruct (write_guard_one_spec env sp) as (H1 & H2 & _).
    destruct (Nat.eq_0_gt_0_cases (ProjectSprint.count_tasks env sp))
      as [Z|P]; [|eauto].
    destruct Hc as [Hc|Hc]; [lia|eauto]. }
  destruct Hr as (x & Hx).
  destruct (for_each_not_ok _ _ _ _ Hin Hx) as (e & He).
  unfold ProjectSprint.write_guard. rewrite He.
  apply for_each_raise in He. destruct He as (sp' & _ & Hb).
  unfold ProjectSprint.write_guard_one in Hb.
  destruct (0 <? _)%nat.
  - injection Hb as <-. eauto.
  - destruct (_ || _); [|discriminate]. injection Hb as <-. eauto.
Qed.

(** The guard of [write] refuses before anything is written. *)
Lemma write_refused today self vals env sp :
  Orm.v_project_id vals <> None ->
  In sp (sprint_records env self) ->
  (0 < ProjectSprint.count_tasks env sp)%nat
  \/ Sprint.state sp = active \/ Sprint.state sp = done ->
  exists msg,
    ProjectSprintWrite.write today self vals env
    = (Raise (ValidationError msg), env)
    /\ (msg = ProjectSprint.msg_has_tasks
        \/ msg = ProjectSprint.msg_active_done).
Proof.
  intros Hk Hin Hc. unfold ProjectSprintWrite.write,
    ProjectSprintWrite.has_project_key.
  destruct (Orm.v_project_id vals); [|congruence].
  destruct (write_guard_rejects env _ sp Hin Hc) as (msg & -> & Hm).
  eauto.
Qed.

Lemma sprint_records_single h env i sp :
  (forall x, Sprint.id (h x) = Sprint.id x) ->
  browse_sprint env i = Some sp ->
  sprint_records (Orm.update_sprints h [i] env) [i] = [h sp].
Proof.
  intros Hk B. unfold sprint_records. cbn [flat_map].
  rewrite browse_sprint_update by exact Hk. rewrite B.
  destruct (browse_sprint_some _ _ _ B) as [_ <-].
  cbn [option_map option_to_list]. rewrite mem_single. reflexivity.
Qed.

Lemma sprint_records_one env i sp :
  browse_sprint env i = Some sp -> sprint_records env [i] = [sp].
Proof. intros B. unfold sprint_records. cbn [flat_map]. now rewrite B. Qed.

(** ** The task selection on one sprint *)

Lemma inverse_single selected i env :
  ProjectSprintWrite._inverse_task_select_ids [i] selected env
  = ProjectSprintWrite.inverse_one selected i env.
Proof.
  unfold ProjectSprintWrite._inverse_task_select_ids. cbn [Orm.for_each_M].
  unfold Orm.bind, Orm.ret.
  destruct (ProjectSprintWrite.inverse_one selected i env) as [[[]|e] env'];
    reflexivity.
Qed.

Lemma inverse_refused selected i env sprint :
  browse_sprint env i = Some sprint ->
  (Sprint.project_id sprint = None ->
   ProjectSprintWrite._inverse_task_select_ids [i] selected env
   = (Raise (ValidationError ProjectSprint.msg_select_project), env))
  /\ (Sprint.project_id sprint <> None ->
      ProjectSprintWrite.mismatched env sprint selected <> [] ->
      ProjectSprintWrite._inverse_task_select_ids [i] selected env
      = (Raise (ValidationError ProjectSprint.msg_only_add), env)).
Proof.
  intros B. rewrite inverse_single. unfold ProjectSprintWrite.inverse_one.
  rewrite B. split.
  - intros ->. reflexivity.
  - intros Hp Hm. destruct (Sprint.project_id sprint); [|congruence].
    destruct (ProjectSprintWrite.mismatched env sprint selected);
      [congruence|reflexivity].
Qed.

(** ** The task selection as a diff *)

Lemma NoDup_map_inj {A} (f : A -> nat) (l : list A) (a b : A) :
  NoDup (map f l) -> In a l -> In b l -> f a = f b -> a = b.
Proof.
  induction l as [|x l IH]; simpl; [intros _ []|].
  intros H Ha Hb E. inversion H as [|? ? Hx Hl]; subst.
  destruct Ha as [->|Ha], Hb as [->|Hb]; auto.
  - exfalso. apply Hx. rewrite E. now apply in_map.
  - exfalso. apply Hx. rewrite <- E. now apply in_map.
Qed.

(** With ids as keys, the ids of [sprint.task_ids] are those of the tasks
    that point to the sprint. *)
Lemma linked_ids env sprint t :
  NoDup (map Task.id (tasks env)) -> In t (tasks env) ->
  (mem (Task.id t) (map Task.id (task_ids env sprint)) = true
   <-> Task.sprint_id t = Some (Sprint.id sprint)).
Proof.
  intros Hnd Hin. rewrite mem_In, in_map_iff. split.
  - intros (t2 & E & H2). apply filter_In in H2. destruct H2 as [I2 M].
    rewrite (NoDup_map_inj Task.id _ _ _ Hnd Hin I2 (eq_sym E)).
    now apply many2one_eqb_eq.
  - intros E. exists t. split; [reflexivity|].
    apply filter_In. split; [exact Hin|]. rewrite E.
    apply many2one_eqb_refl.
Qed.

Lemma mem_filter p i ids :
  mem i (filter p ids) = true <-> (mem i ids = true /\ p i = true).
Proof. rewrite !mem_In, filter_In. reflexivity. Qed.

Lemma to_add_remove_apart env sprint selected i :
  mem i (ProjectSprintWrite.to_add env sprint selected) = true ->
  mem i (ProjectSprintWrite.to_remove env sprint selected) = false.
Proof.
  unfold ProjectSprintWrite.to_add, ProjectSprintWrite.to_remove.
  intros H. apply mem_filter in H. destruct H as [Hs _].
  destruct (mem i (filter _ _)) eqn:E; [|reflexivity].
  apply mem_filter in E. destruct E as [_ E]. rewrite Hs in E. discriminate.
Qed.

Lemma write_task_accepted ids vals env :
  Orm.dangling_sprint env vals = false ->
  (forall t, In t (task_records
                     (Orm.update_tasks (Orm.assign_task vals) ids env) ids) ->
             ProjectTask.check_one
               (Orm.update_tasks (Orm.assign_task vals) ids env) t = Ok tt) ->
  Orm.write_task ids vals env
  = (Ok tt, Orm.update_tasks (Orm.assign_task vals) ids env).
Proof.
  intros Hd Hc. unfold Orm.write_task. rewrite Hd. cbn [andb]. f_equal.
  unfold Orm.validate_tasks. apply validate_fields_ok.
  intros watched m Hin _. simpl in Hin. destruct Hin as [E|[]].
  injection E as _ <-. now apply for_each_ok.
Qed.

Lemma updated_task_records h ids env t' :
  (forall t, Task.id (h t) = Task.id t) ->
  In t' (task_records (Orm.update_tasks h ids env) ids) ->
  exists t, In t (tasks env) /\ In (Task.id t) ids /\ t' = h t.
Proof.
  intros Hk Hin. unfold task_records, browse_task in Hin.
  apply records_sub in Hin. destruct Hin as [Hin Hid].
  destruct (update_tasks_In _ _ _ _ Hin) as (t & Ht & [[M ->]|[M ->]]).
  - exists t. rewrite Hk in Hid. auto.
  - apply mem_In in Hid. congruence.
Qed.

(** The selection goes through when no task to add is of another project
    or due after the end of the sprint, and then it is the diff. *)
Lemma inverse_applied selected i env sprint :
  well_formed env ->
  browse_sprint env i = Some sprint ->
  Sprint.project_id sprint <> None ->
  ProjectSprintWrite.mismatched env sprint selected = [] ->
  (forall t, In t (task_records env
                     (ProjectSprintWrite.to_add env sprint selected)) ->
             ProjectTask.deadline_after_end t sprint = None) ->
  ProjectSprintWrite._inverse_task_select_ids [i] selected env
  = (Ok tt, selection_applied sprint selected env).
Proof.
  intros (Hs & Ht & _) B Hp Hm Hd. rewrite inverse_single.
  unfold ProjectSprintWrite.inverse_one. rewrite B.
  destruct (Sprint.project_id sprint) as [q|] eqn:Eq; [|congruence].
  rewrite Hm. cbn [ProjectSprint.nonempty].
  destruct (browse_sprint_some _ _ _ B) as [Hsin Hid].
  assert (B' : browse_sprint env (Sprint.id sprint) = Some sprint)
    by now rewrite Hid.
  unfold Orm.bind.
  rewrite write_task_accepted.
  - rewrite write_task_accepted.
    + f_equal. unfold selection_applied, Orm.update_tasks. cbn [sprints tasks].
      f_equal. rewrite map_map. apply map_ext. intros t.
      destruct (mem (Task.id t)
                  (ProjectSprintWrite.to_add env sprint selected)) eqn:A.
      * cbn [Orm.assign_task Task.id].
        now rewrite (to_add_remove_apart _ _ _ _ A).
      * reflexivity.
    + reflexivity.
    + intros t' Hin.
      apply updated_task_records in Hin; [|reflexivity].
      destruct Hin as (t & _ & _ & ->).
      unfold ProjectTask.check_one, task_sprint. reflexivity.
  - unfold Orm.dangling_sprint. cbn [ProjectSprintWrite.sprint_id_vals
      Orm.tv_sprint_id]. now rewrite B'.
  - intros t' Hin.
    apply updated_task_records in Hin; [|reflexivity].
    destruct Hin as (t & Htin & Hadd & ->).
    assert (Hrec : In t (task_records env
                     (ProjectSprintWrite.to_add env sprint selected))).
    { unfold task_records, browse_task. now apply records_nodup. }
    unfold ProjectTask.check_one, task_sprint.
    cbn [Orm.assign_task ProjectSprintWrite.sprint_id_vals Orm.tv_sprint_id
           Orm.or_else Task.sprint_id].
    change (browse_sprint (Orm.update_tasks _ _ env) (Sprint.id sprint))
      with (browse_sprint env (Sprint.id sprint)).
    rewrite B'.
    assert (Hpm : many2one_eqb (Task.project_id t) (Some q) = true).
    { destruct (many2one_eqb (Task.project_id t) (Some q)) eqn:M;
        [reflexivity|]. exfalso.
      assert (In t (ProjectSprintWrite.mismatched env sprint selected)).
      { unfold ProjectSprintWrite.mismatched. apply filter_In.
        split; [exact Hrec|]. now rewrite Eq, M. }
      rewrite Hm in H. contradiction. }
    apply many2one_eqb_eq in Hpm.
    unfold ProjectTask.project_mismatch.
    cbn [Orm.assign_task Task.project_id Orm.tv_project_id
           ProjectSprintWrite.sprint_id_vals Orm.or_else].
    rewrite Hpm, Eq, Nat.eqb_refl. cbn [negb].
    specialize (Hd t Hrec). unfold ProjectTask.deadline_after_end in *.
    cbn [Orm.assign_task Task.date_deadline Orm.tv_date_deadline
           ProjectSprintWrite.sprint_id_vals Orm.or_else].
    now rewrite Hd.
Qed.

Lemma inverse_late selected i env sprint t :
  well_formed env ->
  browse_sprint env i = Some sprint ->
  Sprint.project_id sprint <> None ->
  ProjectSprintWrite.mismatched env sprint selected = [] ->
  In t (task_records env (ProjectSprintWrite.to_add env sprint selected)) ->
  ProjectTask.deadline_after_end t sprint <> None ->
  exists msg env1,
    ProjectSprintWrite._inverse_task_select_ids [i] selected env
    = (Raise (ValidationError msg), env1).
Proof.
  intros (Hs & Ht & _) B Hp Hm Hin Hlate. rewrite inverse_single.
  unfold ProjectSprintWrite.inverse_one. rewrite B.
  destruct (Sprint.project_id sprint) as [q|] eqn:Eq; [|congruence].
  rewrite Hm. cbn [ProjectSprint.nonempty].
  destruct (browse_sprint_some _ _ _ B) as [Hsin Hid].
  assert (B' : browse_sprint env (Sprint.id sprint) = Some sprint)
    by now rewrite Hid.
  unfold Orm.bind, Orm.write_task at 1.
  assert (Hd : Orm.dangling_sprint env
                 (ProjectSprintWrite.sprint_id_vals (Some (Sprint.id sprint)))
               = false).
  { unfold Orm.dangling_sprint. cbn [ProjectSprintWrite.sprint_id_vals
      Orm.tv_sprint_id]. now rewrite B'. }
  rewrite Hd. cbn [andb].
  match goal with
  | |- context [Orm.validate_tasks ?k ?ids ?en] =>
      destruct (Orm.validate_tasks k ids en) as [[]|x] eqn:V
  end.
  - exfalso.
    apply validate_tasks_method in V; [|reflexivity].
    unfold task_records, browse_task in Hin.
    apply records_In in Hin. destruct Hin as (j & Hj & Bj).
    fold (browse_task env j) in Bj.
    destruct (browse_task_some _ _ _ Bj) as [_ Ej].
    set (vals := ProjectSprintWrite.sprint_id_vals (Some (Sprint.id sprint)))
      in *.
    set (ids := ProjectSprintWrite.to_add env sprint selected) in *.
    assert (R : In (Orm.assign_task vals t)
                   (task_records (Orm.update_tasks (Orm.assign_task vals)
                                                   ids env) ids)).
    { unfold task_records, browse_task. apply records_In. exists j.
      split; [exact Hj|]. fold (browse_task
        (Orm.update_tasks (Orm.assign_task vals) ids env) j).
      rewrite browse_task_update by reflexivity. rewrite Bj.
      cbn [option_map]. rewrite Ej.
      now rewrite (proj2 (mem_In j ids) Hj). }
    assert (S : task_sprint (Orm.update_tasks (Orm.assign_task vals) ids env)
                            (Orm.assign_task vals t) = Some sprint).
    { unfold task_sprint. cbn. exact B'. }
    destruct (check_task_accepts _ _ V _ _ R S) as [_ K].
    unfold ProjectTask.deadline_after_end in Hlate.
    destruct (Task.date_deadline t) as [d|] eqn:Ed; [|congruence].
    destruct (Sprint.end_date sprint) as [e|] eqn:Ee; [|congruence].
    specialize (K d e Ed eq_refl).
    destruct (Z.gtb_spec d e); [lia|congruence].
  - destruct (validate_tasks_raise _ _ _ _ V) as (msg & ->). eauto.
Qed.

(** * The claims *)

(** ** C1: the derived state *)

(** C1, counterexample: an auto-mode sprint with only [end_date] set,
    looked at after that date, is [done] and not [planned]. *)
Lemma C1_counterexample :
  Sprint.state_mode sprint_without_start = auto
  /\ Sprint.start_date sprint_without_start = None
  /\ Sprint.state (ProjectSprint._compute_state (date_of_ymd 2024 2 1)
                                                sprint_without_start) = done
  /\ ~ C1_as_stated (date_of_ymd 2024 2 1) sprint_without_start.
Proof.
  repeat split.
  intros (_ & _ & H).
  specialize (H eq_refl (or_introl eq_refl)).
  vm_compute in H. discriminate H.
Qed.

(** C1 (amended): in manual mode the state is [state_manual]; in auto mode
    the tests run in the order of the code: [planned] when [start_date] is
    set and [today < start_date], else [active] when both dates are set and
    [start_date <= today <= end_date], else [done] when [end_date] is set
    and [today > end_date], else [planned].  So with both dates set the
    state is [planned] before the start, [active] within the period and
    [done] after the end once the start is reached; with [end_date] missing
    it is [planned]; with only [start_date] missing it is [done] after
    [end_date] and [planned] up to it.  Scenario A evaluates to [active]. *)
Theorem C1_compute_state (today : date) (sp : Sprint.t) :
  let st := Sprint.state (ProjectSprint._compute_state today sp) in
  (Sprint.state_mode sp = manual -> st = Sprint.state_manual sp)
  /\ (Sprint.state_mode sp = auto ->
      forall s e, Sprint.start_date sp = Some s ->
                  Sprint.end_date sp = Some e ->
        (today < s -> st = planned)
        /\ (s <= today <= e -> st = active)
        /\ (s <= today -> today > e -> st = done))
  /\ (Sprint.state_mode sp = auto -> Sprint.end_date sp = None ->
      st = planned)
  /\ (Sprint.state_mode sp = auto -> Sprint.start_date sp = None ->
      forall e, Sprint.end_date sp = Some e ->
        (today > e -> st = done) /\ (today <= e -> st = planned))
  /\ Sprint.state (ProjectSprint._compute_state (date_of_ymd 2024 1 7)
                                                scenario_sprint) = active.
Proof.
  cbv zeta. unfold ProjectSprint._compute_state, ProjectSprint.computed_state.
  cbn [ProjectSprint.set_state Sprint.state].
  split; [|split; [|split; [|split; [|reflexivity]]]].
  - intros ->. reflexivity.
  - intros -> s e -> ->. cbn [ProjectSprint.date_and].
    split; [|split].
    + intros Hlt. destruct (Z.ltb_spec today s); [reflexivity|lia].
    + intros [Hs He]. destruct (Z.ltb_spec today s); [lia|].
      destruct (Z.leb_spec s today); [|lia].
      destruct (Z.leb_spec today e); [reflexivity|lia].
    + intros Hs He. destruct (Z.ltb_spec today s); [lia|].
      destruct (Z.leb_spec s today); [|lia].
      destruct (Z.leb_spec today e); [lia|]. cbn [andb].
      destruct (Z.gtb_spec today e); [reflexivity|lia].
  - intros -> ->.
    destruct (Sprint.start_date sp) as [s|]; cbn [ProjectSprint.date_and];
      [|reflexivity].
    destruct (today <? s); reflexivity.
  - intros -> -> e ->. cbn [ProjectSprint.date_and]. split; intros H.
    + destruct (Z.gtb_spec today e); [reflexivity|lia].
    + destruct (Z.gtb_spec today e); [lia|reflexivity].
Qed.

(** Scenario A, read off the theorem. *)
Lemma C1_compute_state_witness :
  Sprint.state_mode scenario_sprint = auto
  /\ date_of_ymd 2024 1 1 <= date_of_ymd 2024 1 7 <= date_of_ymd 2024 1 14
  /\ Sprint.state (ProjectSprint._compute_state (date_of_ymd 2024 1 7)
                                                scenario_sprint) = active.
Proof.
  assert (Hd : date_of_ymd 2024 1 1 <= date_of_ymd 2024 1 7
               <= date_of_ymd 2024 1 14)
    by (split; intro H; discriminate H).
  split; [reflexivity|]. split; [exact Hd|].
  exact (proj1 (proj2
           (proj1 (proj2 (C1_compute_state (date_of_ymd 2024 1 7)
                                           scenario_sprint))
              eq_refl _ _ eq_refl eq_refl)) Hd).
Defined.

(** ** C2: order and duration of the dates *)

(** C2: with both dates set the date validator raises a ValidationError
    exactly when [end_date < start_date] or
    [(end_date - start_date).days + 1 > 28], and accepts otherwise; on a
    recordset it raises exactly when one of its sprints is such; a create
    with such dates, and a write of a date that leaves a sprint with such
    dates, is refused with nothing written; the sprint from 2024-01-01 to
    2024-02-15 is rejected. *)
Theorem C2_check_duration_and_order :
  (forall sp s e,
      Sprint.start_date sp = Some s -> Sprint.end_date sp = Some e ->
      (is_validation_error (ProjectSprint._check_duration_and_order [sp])
       <-> (e < s \/ days_between e s + 1 > 28))
      /\ (ProjectSprint._check_duration_and_order [sp] = Ok tt
          <-> ~ (e < s \/ days_between e s + 1 > 28)))
  /\ (forall self,
      is_validation_error (ProjectSprint._check_duration_and_order self)
      <-> exists sp s e, In sp self /\ Sprint.start_date sp = Some s
            /\ Sprint.end_date sp = Some e
            /\ (e < s \/ days_between e s + 1 > 28))
  /\ (forall today vals env n p s e,
      Orm.v_name vals = Some n -> Orm.v_project_id vals = Some (Some p) ->
      Orm.v_start_date vals = Some (Some s) ->
      Orm.v_end_date vals = Some (Some e) ->
      e < s \/ days_between e s + 1 > 28 ->
      exists msg,
        request today (SprintCreate vals) env
        = (Raise (ValidationError msg), env))
  /\ (forall today ids vals env sp s e,
      Orm.clears_required vals = false ->
      Orm.v_start_date vals <> None \/ Orm.v_end_date vals <> None ->
      In sp (sprint_records
               (Orm.update_sprints (Orm.write_row today vals) ids env) ids) ->
      Sprint.start_date sp = Some s -> Sprint.end_date sp = Some e ->
      e < s \/ days_between e s + 1 > 28 ->
      exists msg,
        request today (SprintWrite ids vals) env
        = (Raise (ValidationError msg), env))
  /\ ProjectSprint._check_duration_and_order [sprint_46_days]
     = Raise (ValidationError
                "Sprint duration cannot exceed 4 weeks (28 days).").
Proof.
  split; [|split; [|split; [|split; [|reflexivity]]]].
  - intros sp s e Hs He.
    destruct (check_duration_one_spec sp s e Hs He) as (H1 & H2 & H3).
    unfold ProjectSprint._check_duration_and_order, is_validation_error.
    simpl.
    destruct (Z.lt_ge_cases e s) as [Hlt|Hge].
    + rewrite (H1 Hlt). split; split; intros; try lia; eauto; discriminate.
    + destruct (Z.le_gt_cases (days_between e s + 1) 28) as [Hd|Hd].
      * rewrite (H3 ltac:(lia) Hd).
        split; split; intros H; try reflexivity; try lia.
        destruct H as (msg & H). discriminate.
      * rewrite (H2 ltac:(lia) ltac:(lia)).
        split; split; intros; try lia; eauto; discriminate.
  - intros self. unfold ProjectSprint._check_duration_and_order. split.
    + intros (msg & H). apply for_each_raise in H.
      destruct H as (sp & Hin & Hb).
      apply check_duration_one_raise in Hb.
      destruct Hb as (s & e & Hs & He & Hv & _).
      exists sp, s, e. auto.
    + intros (sp & s & e & Hin & Hs & He & Hv).
      destruct (check_duration_rejects self sp s e Hin Hs He Hv) as (x & Hx).
      destruct (for_each_raise _ _ _ Hx) as (sp' & _ & Hb').
      apply check_duration_one_raise in Hb'.
      destruct Hb' as (_ & _ & _ & _ & _ & msg & ->).
      exists msg. exact Hx.
  - intros today vals env n p s e En Ep Es Ee Hv.
    refine (create_sprint_rejected_by today vals env n p s e
              [Orm.f_start_date; Orm.f_end_date] _ En Ep Es Ee _ eq_refl _).
    + simpl. left. reflexivity.
    + eapply check_duration_rejects;
        [left; reflexivity|reflexivity|reflexivity|exact Hv].
  - intros today ids vals env sp s e Hr Hk Hin Hs He Hv.
    refine (write_rejected_by today ids vals env
              [Orm.f_start_date; Orm.f_end_date] _ Hr _
              (watches_duration vals Hk) _).
    + simpl. left. reflexivity.
    + exact (check_duration_rejects _ sp s e Hin Hs He Hv).
Qed.

(** Scenario C, read off the theorem. *)
Lemma C2_check_duration_and_order_witness :
  is_validation_error
    (ProjectSprint._check_duration_and_order [sprint_46_days]).
Proof.
  apply (proj2 (proj1 (proj1 C2_check_duration_and_order sprint_46_days
                         _ _ eq_refl eq_refl))).
  right. reflexivity.
Defined.

(** ** C3: a single active sprint per project *)

(** C3: the validator raises a ValidationError for a recordset holding an
    active sprint when the table holds another active sprint of the same
    project; every successful request (create, write, unlink, the four
    buttons, the task selection, task create, write and unlink) started with
    at most one active sprint per project ends so; a sprint write that
    leaves a written sprint active beside another active sprint of its
    project is refused with nothing written, as is, in scenario D, the
    button that makes sprint 2 active. *)
Theorem C3_one_active_sprint_per_project :
  (forall env self a b,
      In a self -> In b (sprints env) ->
      Sprint.state a = active -> Sprint.state b = active ->
      Sprint.project_id b = Sprint.project_id a ->
      Sprint.id b <> Sprint.id a ->
      is_validation_error
        (ProjectSprint._check_if_project_already_has_active_sprint env self))
  /\ (forall today m env env',
      well_formed env -> one_active_per_project env ->
      request today m env = (Ok tt, env') ->
      one_active_per_project env')
  /\ (forall today ids vals env a b,
      Orm.clears_required vals = false ->
      Orm.v_project_id vals <> None \/ Orm.v_start_date vals <> None
      \/ Orm.v_end_date vals <> None \/ Orm.v_state_mode vals <> None
      \/ Orm.v_state_manual vals <> None ->
      In a (sprint_records
              (Orm.update_sprints (Orm.write_row today vals) ids env) ids) ->
      In b (sprints (Orm.update_sprints (Orm.write_row today vals) ids env)) ->
      Sprint.state a = active -> Sprint.state b = active ->
      Sprint.project_id b = Sprint.project_id a ->
      Sprint.id b <> Sprint.id a ->
      exists msg,
        request today (SprintWrite ids vals) env
        = (Raise (ValidationError msg), env))
  /\ request (date_of_ymd 2024 1 7) (ActionSetActive [2%nat]) scenario_D
     = (Raise (ValidationError
                 "Only one active sprint is allowed per project."),
        scenario_D).
Proof.
  split; [|split; [|split; [|reflexivity]]].
  - intros env self a b. apply check_active_rejects.
  - intros today m env env' Hwf HI H.
    apply (proj1 (transaction_ok _ _ _ _)) in H.
    exact (proj2 (perform_one_active today m env tt env' H (conj Hwf HI))).
  - intros today ids vals env a b Hr Hk Ha Hb Sa Sb Hp N.
    refine (write_rejected_by today ids vals env
              [Orm.f_state; Orm.f_project_id] _ Hr _
              (watches_active_true vals Hk) _).
    + simpl. right. left. reflexivity.
    + destruct (check_active_rejects _ _ a b Ha Hb Sa Sb Hp N) as (msg & E).
      eauto.
Qed.

(** In scenario D the button that closes sprint 2 goes through, and one
    sprint of the project is active afterwards. *)
Lemma C3_one_active_sprint_per_project_witness :
  well_formed scenario_D /\ one_active_per_project scenario_D
  /\ fst (request (date_of_ymd 2024 1 7) (ActionSetDone [2%nat]) scenario_D)
     = Ok tt
  /\ one_active_per_project
       (snd (request (date_of_ymd 2024 1 7) (ActionSetDone [2%nat])
                     scenario_D)).
Proof.
  assert (Hwf : well_formed scenario_D) by keys_hold.
  assert (HI : one_active_per_project scenario_D).
  { intros a b Ha Hb Sa Sb _. simpl in Ha, Hb. rows; try reflexivity;
      discriminate. }
  split; [exact Hwf|]. split; [exact HI|]. split; [reflexivity|].
  exact (proj1 (proj2 C3_one_active_sprint_per_project)
           (date_of_ymd 2024 1 7) (ActionSetDone [2%nat]) scenario_D _
           Hwf HI eq_refl).
Defined.

(** ** C4: the project of a sprint that has tasks or has started *)

(** C4: a write that carries [project_id] on a recordset with a sprint that
    has a task, or is active or done, raises a ValidationError before
    anything is written, so the database, and with it every field of the
    sprint, is as before; a sprint without tasks and in state planned gets
    the project that is written to it. *)
Theorem C4_project_immutable :
  (forall today self vals env sp,
      Orm.v_project_id vals <> None ->
      In sp (sprint_records env self) ->
      (0 < ProjectSprint.count_tasks env sp)%nat
      \/ Sprint.state sp = active \/ Sprint.state sp = done ->
      exists msg,
        ProjectSprintWrite.write today self vals env
        = (Raise (ValidationError msg), env)
        /\ request today (SprintWrite self vals) env
           = (Raise (ValidationError msg), env)
        /\ (msg = ProjectSprint.msg_has_tasks
            \/ msg = ProjectSprint.msg_active_done))
  /\ (forall today env i sp p,
      browse_sprint env i = Some sp ->
      ProjectSprint.count_tasks env sp = 0%nat ->
      Sprint.state sp = planned ->
      ProjectSprintWrite.write today [i] (project_vals (Some p)) env
      = (Ok tt,
         Orm.update_sprints (Orm.assign_sprint (project_vals (Some p)))
                            [i] env)
      /\ browse_sprint
           (Orm.update_sprints (Orm.assign_sprint (project_vals (Some p)))
                               [i] env) i
         = Some (Orm.assign_sprint (project_vals (Some p)) sp)
      /\ Sprint.project_id (Orm.assign_sprint (project_vals (Some p)) sp)
         = Some p).
Proof.
  split.
  - intros today self vals env sp Hk Hin Hc.
    destruct (write_refused today self vals env sp Hk Hin Hc)
      as (msg & Hw & Hm).
    exists msg. split; [exact Hw|]. split; [|exact Hm].
    exact (request_raise today (SprintWrite self vals) env _ env Hw).
  - intros today env i sp p B Hc Hs.
    split; [|split; [|reflexivity]].
    + unfold ProjectSprintWrite.write. cbn [ProjectSprintWrite.has_project_key
        project_vals Orm.v_project_id].
      rewrite (sprint_records_one _ _ _ B).
      unfold ProjectSprint.write_guard. cbn [for_each].
      rewrite (proj2 (proj2 (write_guard_one_spec env sp)) Hc Hs).
      rewrite write_sprint_validates by reflexivity.
      change (Orm.write_row today (project_vals (Some p)))
        with (Orm.assign_sprint (project_vals (Some p))).
      f_equal.
      unfold Orm.validate_sprints.
      rewrite (sprint_records_single
                 (Orm.assign_sprint (project_vals (Some p))) env i sp
                 (fun _ => eq_refl) B).
      apply validate_fields_ok. intros watched m Hin W.
      simpl in Hin. destruct Hin as [E|[E|[E|[E|[]]]]];
        injection E as <- <-; try discriminate W.
      * unfold ProjectSprint._check_if_project_already_has_active_sprint.
        cbn [for_each]. unfold ProjectSprint.check_active_one.
        cbn [Orm.assign_sprint Sprint.state]. rewrite Hs. reflexivity.
      * unfold ProjectSprint._check_tasks_match_project.
        cbn [for_each]. unfold ProjectSprint.check_tasks_match_one.
        cbn [Orm.assign_sprint Sprint.project_id project_vals
               Orm.v_project_id Orm.or_else].
        replace (task_ids _ _) with (task_ids env sp) by reflexivity.
        unfold ProjectSprint.count_tasks in Hc.
        apply length_zero_iff_nil in Hc. rewrite Hc. reflexivity.
    + rewrite browse_sprint_update by reflexivity. rewrite B.
      destruct (browse_sprint_some _ _ _ B) as [_ <-].
      cbn [option_map]. now rewrite mem_single.
Qed.

(** The January sprint with its task keeps its project. *)
Lemma C4_project_immutable_witness :
  (0 < ProjectSprint.count_tasks sprint_with_task january_sprint)%nat
  /\ exists msg,
       ProjectSprintWrite.write (date_of_ymd 2024 1 5) [1%nat]
         (project_vals (Some 2%nat)) sprint_with_task
       = (Raise (ValidationError msg), sprint_with_task).
Proof.
  assert (Hc : (0 < ProjectSprint.count_tasks sprint_with_task
                      january_sprint)%nat) by (vm_compute; lia).
  split; [exact Hc|].
  destruct (proj1 C4_project_immutable (date_of_ymd 2024 1 5) [1%nat]
              (project_vals (Some 2%nat)) sprint_with_task january_sprint
              ltac:(discriminate) (or_introl eq_refl) (or_introl Hc))
    as (msg & Hw & _).
  exists msg. exact Hw.
Defined.

(** ** C5: a task and its sprint share the project *)

(** C5: the task validator raises a ValidationError for a recordset with a
    task whose project and whose sprint's project are both set and differ;
    putting a task into a sprint of another project is refused with nothing
    written; and every successful request started with each task in a sprint
    of its own project (when both projects are set) ends so. *)
Theorem C5_task_project_matches_sprint :
  (forall env self t s p q,
      In t self -> task_sprint env t = Some s ->
      Task.project_id t = Some p -> Sprint.project_id s = Some q ->
      p <> q ->
      is_validation_error
        (ProjectTask._check_sprint_deadline_and_project env self))
  /\ (forall today env i t j s p q,
      browse_task env i = Some t -> browse_sprint env j = Some s ->
      Task.project_id t = Some p -> Sprint.project_id s = Some q ->
      p <> q ->
      request today
        (TaskWrite [i] (ProjectSprintWrite.sprint_id_vals (Some j))) env
      = (Raise (ValidationError ProjectTask.msg_project), env))
  /\ (forall today m env env',
      well_formed env -> task_project_matches env ->
      request today m env = (Ok tt, env') ->
      task_project_matches env').
Proof.
  split; [|split].
  - intros env self t s p q Ht Hs Ep Eq N.
    apply (check_task_rejects env self t s Ht Hs). left. eauto.
  - intros today env i t j s p q Bt Bs Ep Eq N.
    unfold request, Orm.transaction, perform.
    rewrite (write_task_rejected i _ env t
               (ValidationError ProjectTask.msg_project) Bt).
    + reflexivity.
    + unfold Orm.dangling_sprint. simpl. now rewrite Bs.
    + reflexivity.
    + unfold ProjectTask.check_one, task_sprint. simpl.
      change (browse_sprint (Orm.update_tasks _ _ env) j)
        with (browse_sprint env j).
      rewrite Bs. unfold ProjectTask.project_mismatch. simpl.
      rewrite Ep, Eq. apply Nat.eqb_neq in N. now rewrite N.
  - intros today m env env' Hwf HI H.
    apply (proj1 (transaction_ok _ _ _ _)) in H.
    exact (proj2 (perform_project_matches today m env tt env' H
                    (conj Hwf HI))).
Qed.

(** Moving the deadline of the January task to 2024-01-25 goes through and
    the task is still in a sprint of its project. *)
Lemma C5_task_project_matches_sprint_witness :
  well_formed sprint_with_task /\ task_project_matches sprint_with_task
  /\ fst (request (date_of_ymd 2024 1 5)
            (TaskWrite [1%nat] (deadline_vals (date_of_ymd 2024 1 25)))
            sprint_with_task) = Ok tt
  /\ task_project_matches
       (snd (request (date_of_ymd 2024 1 5)
               (TaskWrite [1%nat] (deadline_vals (date_of_ymd 2024 1 25)))
               sprint_with_task)).
Proof.
  assert (Hwf : well_formed sprint_with_task) by keys_hold.
  assert (HI : task_project_matches sprint_with_task).
  { intros t s p q Ht Hs _ Ep Eq. simpl in Ht, Hs. rows.
    simpl in Ep, Eq. congruence. }
  split; [exact Hwf|]. split; [exact HI|]. split; [reflexivity|].
  exact (proj2 (proj2 C5_task_project_matches_sprint)
           (date_of_ymd 2024 1 5)
           (TaskWrite [1%nat] (deadline_vals (date_of_ymd 2024 1 25)))
           sprint_with_task _ Hwf HI eq_refl).
Defined.

(** ** C6: the deadline of a task and the end of its sprint *)

(** C6, counterexample: moving the end of the January sprint to 2024-01-20
    goes through, and leaves its task due on 2024-01-30. *)
Lemma C6_counterexample :
  fst (request (date_of_ymd 2024 1 5)
         (SprintWrite [1%nat] (end_date_vals (date_of_ymd 2024 1 20)))
         sprint_with_task) = Ok tt
  /\ ~ deadline_within_sprint
         (snd (request (date_of_ymd 2024 1 5)
                 (SprintWrite [1%nat]
                    (end_date_vals (date_of_ymd 2024 1 20)))
                 sprint_with_task))
  /\ ~ C6_as_stated.
Proof.
  assert (Hbad : ~ deadline_within_sprint
         (snd (request (date_of_ymd 2024 1 5)
                 (SprintWrite [1%nat]
                    (end_date_vals (date_of_ymd 2024 1 20)))
                 sprint_with_task))).
  { intros H.
    specialize (H _ _ (date_of_ymd 2024 1 30) (date_of_ymd 2024 1 20)
                  (or_introl eq_refl) (or_introl eq_refl)
                  eq_refl eq_refl eq_refl).
    vm_compute in H. apply H. reflexivity. }
  split; [reflexivity|]. split; [exact Hbad|].
  intros H. apply Hbad.
  apply (H (date_of_ymd 2024 1 5)
           (SprintWrite [1%nat] (end_date_vals (date_of_ymd 2024 1 20)))
           sprint_with_task).
  - keys_hold.
  - intros t s d e Ht Hs _ Ed Ee. simpl in Ht, Hs. rows.
    simpl in Ed, Ee. injection Ed as <-. injection Ee as <-.
    intros C. discriminate C.
  - reflexivity.
Qed.

(** C6 (amended): the task validator raises a ValidationError for a
    recordset with a task whose deadline is after the end date of its
    sprint; giving a task of a sprint a deadline after the sprint's end is
    refused with nothing written; and every successful request other than a
    sprint write that carries [end_date] keeps every deadline on or before
    the end of the task's sprint.  A sprint write that moves [end_date] is
    not checked against the deadlines of the sprint's tasks. *)
Theorem C6_task_deadline_within_sprint :
  (forall env self t s d e,
      In t self -> task_sprint env t = Some s ->
      Task.date_deadline t = Some d -> Sprint.end_date s = Some e ->
      d > e ->
      is_validation_error
        (ProjectTask._check_sprint_deadline_and_project env self))
  /\ (forall today env i t s d e,
      browse_task env i = Some t -> task_sprint env t = Some s ->
      Sprint.end_date s = Some e -> d > e ->
      exists msg,
        request today (TaskWrite [i] (deadline_vals d)) env
        = (Raise (ValidationError msg), env))
  /\ (forall today m env env',
      writes_end_date m = false ->
      well_formed env -> deadline_within_sprint env ->
      request today m env = (Ok tt, env') ->
      deadline_within_sprint env').
Proof.
  split; [|split].
  - intros env self t s d e Ht Hs Ed Ee N.
    apply (check_task_rejects env self t s Ht Hs). right.
    exists d, e. auto.
  - intros today env i t s d e Bt Hs Ee N.
    assert (Hc : exists msg,
               ProjectTask.check_one
                 (Orm.update_tasks (Orm.assign_task (deadline_vals d)) [i] env)
                 (Orm.assign_task (deadline_vals d) t)
               = Raise (ValidationError msg)).
    { unfold ProjectTask.check_one.
      replace (task_sprint _ (Orm.assign_task (deadline_vals d) t))
        with (Some s) by (rewrite <- Hs; reflexivity).
      destruct (ProjectTask.project_mismatch _ s); [eauto|].
      unfold ProjectTask.deadline_after_end. simpl. rewrite Ee.
      destruct (Z.gtb_spec d e); [eauto|lia]. }
    destruct Hc as (msg & Hc). exists msg.
    unfold request, Orm.transaction, perform.
    now rewrite (write_task_rejected i (deadline_vals d) env t _ Bt
                   eq_refl eq_refl Hc).
  - intros today m env env' Hm Hwf HI H.
    apply (proj1 (transaction_ok _ _ _ _)) in H.
    exact (proj2 (perform_deadlines today m Hm env tt env' H (conj Hwf HI))).
Qed.

(** Moving the deadline of the January task to 2024-01-25 goes through and
    the deadline is within the sprint. *)
Lemma C6_task_deadline_within_sprint_witness :
  well_formed sprint_with_task /\ deadline_within_sprint sprint_with_task
  /\ fst (request (date_of_ymd 2024 1 5)
            (TaskWrite [1%nat] (deadline_vals (date_of_ymd 2024 1 25)))
            sprint_with_task) = Ok tt
  /\ deadline_within_sprint
       (snd (request (date_of_ymd 2024 1 5)
               (TaskWrite [1%nat] (deadline_vals (date_of_ymd 2024 1 25)))
               sprint_with_task)).
Proof.
  assert (Hwf : well_formed sprint_with_task) by keys_hold.
  assert (HI : deadline_within_sprint sprint_with_task).
  { intros t s d e Ht Hs _ Ed Ee. simpl in Ht, Hs. rows.
    simpl in Ed, Ee. injection Ed as <-. injection Ee as <-.
    intros C. discriminate C. }
  split; [exact Hwf|]. split; [exact HI|]. split; [reflexivity|].
  exact (proj2 (proj2 C6_task_deadline_within_sprint)
           (date_of_ymd 2024 1 5)
           (TaskWrite [1%nat] (deadline_vals (date_of_ymd 2024 1 25)))
           sprint_with_task _ eq_refl Hwf HI eq_refl).
Defined.

(** ** C7: no planned or active manual state once the end date is past *)

(** C7: with both dates set the validator raises a ValidationError exactly
    when the sprint is in manual mode, its end date is before today and
    [state_manual] is planned or active; the start date plays no part (a
    sprint that differs only in its start date is judged alike, and with
    the end date not past the validator accepts wherever the start is);
    a recordset of auto-mode sprints is always accepted; a write of one of
    the four watched fields that leaves such a sprint, and a create of
    such a sprint, is refused with nothing written, as is the button of
    scenario E. *)
Theorem C7_no_past_planned_active :
  (forall today sp s e,
      Sprint.start_date sp = Some s -> Sprint.end_date sp = Some e ->
      (ProjectSprint._check_no_invalid_past_planned_active_sprint today [sp]
       = Raise (ValidationError ProjectSprint.msg_past)
       <-> (Sprint.state_mode sp = manual /\ e < today
            /\ (Sprint.state_manual sp = planned
                \/ Sprint.state_manual sp = active)))
      /\ (ProjectSprint._check_no_invalid_past_planned_active_sprint
            today [sp] = Ok tt
          <-> ~ (Sprint.state_mode sp = manual /\ e < today
                 /\ (Sprint.state_manual sp = planned
                     \/ Sprint.state_manual sp = active))))
  /\ (forall today sp s',
      Sprint.start_date sp <> None ->
      ProjectSprint._check_no_invalid_past_planned_active_sprint today
        [Orm.assign_sprint (start_date_vals s') sp]
      = ProjectSprint._check_no_invalid_past_planned_active_sprint today
          [sp])
  /\ (forall today sp e,
      Sprint.end_date sp = Some e -> today <= e ->
      ProjectSprint._check_no_invalid_past_planned_active_sprint today [sp]
      = Ok tt)
  /\ (forall today self,
      (forall sp, In sp self -> Sprint.state_mode sp = auto) ->
      ProjectSprint._check_no_invalid_past_planned_active_sprint today self
      = Ok tt)
  /\ (forall today ids vals env sp s e,
      Orm.clears_required vals = false ->
      Orm.v_start_date vals <> None \/ Orm.v_end_date vals <> None
      \/ Orm.v_state_mode vals <> None \/ Orm.v_state_manual vals <> None ->
      In sp (sprint_records
               (Orm.update_sprints (Orm.write_row today vals) ids env) ids) ->
      Sprint.start_date sp = Some s -> Sprint.end_date sp = Some e ->
      Sprint.state_mode sp = manual -> e < today ->
      Sprint.state_manual sp = planned \/ Sprint.state_manual sp = active ->
      exists msg,
        request today (SprintWrite ids vals) env
        = (Raise (ValidationError msg), env))
  /\ (forall today vals env n p s e,
      Orm.v_name vals = Some n -> Orm.v_project_id vals = Some (Some p) ->
      Orm.v_start_date vals = Some (Some s) ->
      Orm.v_end_date vals = Some (Some e) ->
      Orm.v_state_mode vals = Some manual -> e < today ->
      Orm.v_state_manual vals = None
      \/ Orm.v_state_manual vals = Some planned
      \/ Orm.v_state_manual vals = Some active ->
      exists msg,
        request today (SprintCreate vals) env
        = (Raise (ValidationError msg), env))
  /\ request (date_of_ymd 2024 3 5) (ActionSetPlanned [1%nat])
             (mkEnv [january_sprint] [])
     = (Raise (ValidationError
          "A sprint whose end date is in the past cannot be set to Planned or Active."),
        mkEnv [january_sprint] []).
Proof.
  split; [|split; [|split; [|split; [|split; [|split; [|reflexivity]]]]]].
  - intros today sp s e Hs He.
    destruct (check_past_one_spec today sp s e Hs He) as [H1 H2].
    unfold ProjectSprint._check_no_invalid_past_planned_active_sprint.
    simpl.
    assert (D : (Sprint.state_mode sp = manual /\ e < today
                 /\ (Sprint.state_manual sp = planned
                     \/ Sprint.state_manual sp = active))
                \/ ~ (Sprint.state_mode sp = manual /\ e < today
                      /\ (Sprint.state_manual sp = planned
                          \/ Sprint.state_manual sp = active))).
    { destruct (Sprint.state_mode sp), (Sprint.state_manual sp),
        (Z.lt_ge_cases e today); try (left; repeat split; auto; fail);
        right; intros (A & B & [C|C]); try discriminate; lia. }
    destruct D as [D|D].
    + rewrite (H1 D). split; split; intros; auto; try discriminate.
      contradiction.
    + rewrite (H2 D). split; split; intros; auto; try discriminate.
      contradiction.
  - intros today sp s' Hs.
    unfold ProjectSprint._check_no_invalid_past_planned_active_sprint,
      ProjectSprint.check_past_one. simpl.
    destruct (Sprint.start_date sp); [reflexivity|congruence].
  - intros today sp e He Hle.
    unfold ProjectSprint._check_no_invalid_past_planned_active_sprint.
    simpl. rewrite check_past_one_ok; [reflexivity|]. right. left. eauto.
  - intros today self Hauto.
    unfold ProjectSprint._check_no_invalid_past_planned_active_sprint.
    apply for_each_ok. intros sp Hin. apply check_past_one_ok. left. auto.
  - intros today ids vals env sp s e Hr Hk Hin Hs He Hm Hlt Hst.
    refine (write_rejected_by today ids vals env
              [Orm.f_start_date; Orm.f_end_date; Orm.f_state_mode;
               Orm.f_state_manual] _ Hr _ (watches_past vals Hk) _).
    + simpl. do 2 right. left. reflexivity.
    + unfold ProjectSprint._check_no_invalid_past_planned_active_sprint.
      eapply for_each_not_ok; [exact Hin|].
      apply (proj1 (check_past_one_spec today sp s e Hs He)). auto.
  - intros today vals env n p s e En Ep Es Ee Hm Hlt Hst.
    refine (create_sprint_rejected_by today vals env n p s e
              [Orm.f_start_date; Orm.f_end_date; Orm.f_state_mode;
               Orm.f_state_manual] _ En Ep Es Ee _ eq_refl _).
    + simpl. do 2 right. left. reflexivity.
    + unfold ProjectSprint._check_no_invalid_past_planned_active_sprint.
      eapply for_each_not_ok; [left; reflexivity|].
      match goal with
      | |- ProjectSprint.check_past_one _ ?r = _ =>
          apply (proj1 (check_past_one_spec today r s e eq_refl eq_refl))
      end.
      cbn [ProjectSprint._compute_state ProjectSprint.set_state
             Sprint.state_mode Sprint.state_manual].
      rewrite Hm. split; [reflexivity|]. split; [exact Hlt|].
      destruct Hst as [-> |[-> | ->]]; simpl; auto.
Qed.

(** Scenario E on the validator: the end date 2024-01-31 is past on
    2024-03-05. *)
Lemma C7_no_past_planned_active_witness :
  date_of_ymd 2024 1 31 < date_of_ymd 2024 3 5
  /\ ProjectSprint._check_no_invalid_past_planned_active_sprint
       (date_of_ymd 2024 3 5) [manual_planned_sprint]
     = Raise (ValidationError ProjectSprint.msg_past).
Proof.
  assert (Hd : date_of_ymd 2024 1 31 < date_of_ymd 2024 3 5)
    by reflexivity.
  split; [exact Hd|].
  exact (proj2 (proj1 (proj1 C7_no_past_planned_active
                         (date_of_ymd 2024 3 5) manual_planned_sprint
                         _ _ eq_refl eq_refl))
           (conj eq_refl (conj Hd (or_introl eq_refl)))).
Defined.

(** ** C8: the task selection as a diff *)

(** C8, counterexample: the late task is of the sprint's project, and
    selecting it is refused all the same, by the task's own validator. *)
Lemma C8_counterexample :
  ProjectSprintWrite.mismatched sprint_and_late_task january_sprint [1%nat]
  = []
  /\ fst (ProjectSprintWrite._inverse_task_select_ids [1%nat] [1%nat]
            sprint_and_late_task)
     = Raise (ValidationError
                (ProjectTask.msg_deadline (date_of_ymd 2024 2 20)
                                          (date_of_ymd 2024 1 31)))
  /\ ~ C8_as_stated.
Proof.
  split; [reflexivity|]. split; [reflexivity|]. intros H.
  assert (Hwf : well_formed sprint_and_late_task) by keys_hold.
  destruct (H [1%nat] 1%nat sprint_and_late_task january_sprint Hwf eq_refl
              ltac:(discriminate)) as [H1 _].
  specialize (H1 eq_refl). vm_compute in H1. discriminate H1.
Qed.

(** C8 (amended): on a sprint with a project, when a task to add is of
    another project the write of the selection raises a ValidationError
    and nothing is written; when none is, and no task to add is due after
    the end of the sprint, the selection is applied as a diff: every
    selected task that was not linked points to the sprint, every linked
    task that is no longer selected points to no sprint, and the other
    tasks are as before; when a task to add of the sprint's project is due
    after the end of the sprint, the validator of the task refuses the
    write and the request leaves the database as it was. *)
Theorem C8_task_selection_diff (today : date) (selected : list nat)
  (i : nat) (env : Env) (sprint : Sprint.t) :
  well_formed env ->
  browse_sprint env i = Some sprint ->
  Sprint.project_id sprint <> None ->
  (ProjectSprintWrite.mismatched env sprint selected <> [] ->
   ProjectSprintWrite._inverse_task_select_ids [i] selected env
   = (Raise (ValidationError ProjectSprint.msg_only_add), env))
  /\ (ProjectSprintWrite.mismatched env sprint selected = [] ->
      (forall t,
          In t (task_records env
                  (ProjectSprintWrite.to_add env sprint selected)) ->
          ProjectTask.deadline_after_end t sprint = None) ->
      ProjectSprintWrite._inverse_task_select_ids [i] selected env
      = (Ok tt, selection_applied sprint selected env)
      /\ (forall t, In t (tasks env) ->
            In (Task.id t) selected -> Task.sprint_id t <> Some i ->
            In (with_sprint (Some i) t)
               (tasks (selection_applied sprint selected env)))
      /\ (forall t, In t (tasks env) ->
            Task.sprint_id t = Some i -> ~ In (Task.id t) selected ->
            In (with_sprint None t)
               (tasks (selection_applied sprint selected env)))
      /\ (forall t, In t (tasks env) ->
            (Task.sprint_id t = Some i <-> In (Task.id t) selected) ->
            In t (tasks (selection_applied sprint selected env))))
  /\ (ProjectSprintWrite.mismatched env sprint selected = [] ->
      (exists t,
          In t (task_records env
                  (ProjectSprintWrite.to_add env sprint selected))
          /\ ProjectTask.deadline_after_end t sprint <> None) ->
      exists msg,
        request today (SprintSelectTasks [i] selected) env
        = (Raise (ValidationError msg), env)).
Proof.
  intros Hwf B Hp. split; [|split].
  - exact (proj2 (inverse_refused selected i env sprint B) Hp).
  - intros Hm Hd.
    split; [exact (inverse_applied selected i env sprint Hwf B Hp Hm Hd)|].
    destruct Hwf as (_ & Hnd & _).
    destruct (browse_sprint_some _ _ _ B) as [_ Hid].
    assert (Hadd : forall t, In t (tasks env) ->
              (mem (Task.id t) (ProjectSprintWrite.to_add env sprint selected)
               = true
               <-> In (Task.id t) selected
                   /\ Task.sprint_id t <> Some i)).
    { intros t Ht. unfold ProjectSprintWrite.to_add.
      rewrite mem_filter, mem_In, negb_true_iff, <- Hid.
      rewrite <- (linked_ids env sprint t Hnd Ht).
      destruct (mem (Task.id t) (map Task.id (task_ids env sprint)));
        intuition congruence. }
    assert (Hrem : forall t, In t (tasks env) ->
              (mem (Task.id t)
                   (ProjectSprintWrite.to_remove env sprint selected) = true
               <-> Task.sprint_id t = Some i
                   /\ ~ In (Task.id t) selected)).
    { intros t Ht. unfold ProjectSprintWrite.to_remove.
      rewrite mem_filter, negb_true_iff, <- Hid.
      rewrite (linked_ids env sprint t Hnd Ht), <- mem_In.
      destruct (mem (Task.id t) selected); intuition congruence. }
    unfold selection_applied. cbn [tasks].
    split; [|split]; intros t Ht.
    + intros Hsel Hn. apply in_map_iff. exists t. split; [|exact Ht].
      rewrite (proj2 (Hadd t Ht) (conj Hsel Hn)). now rewrite Hid.
    + intros Hl Hn. apply in_map_iff. exists t. split; [|exact Ht].
      destruct (mem (Task.id t) (ProjectSprintWrite.to_add _ _ _)) eqn:A.
      * apply (Hadd t Ht) in A. tauto.
      * now rewrite (proj2 (Hrem t Ht) (conj Hl Hn)).
    + intros Hiff. apply in_map_iff. exists t. split; [|exact Ht].
      destruct (mem (Task.id t) (ProjectSprintWrite.to_add _ _ _)) eqn:A.
      * apply (Hadd t Ht) in A. tauto.
      * destruct (mem (Task.id t) (ProjectSprintWrite.to_remove _ _ _))
          eqn:R; [|reflexivity].
        apply (Hrem t Ht) in R. tauto.
  - intros Hm (t & Hin & Hlate).
    destruct (inverse_late selected i env sprint t Hwf B Hp Hm Hin Hlate)
      as (msg & env1 & H).
    exists msg.
    exact (request_raise today (SprintSelectTasks [i] selected) env _ env1 H).
Qed.

(** Selecting task 2 alone for the January sprint links task 2 and
    unlinks task 1. *)
Lemma C8_task_selection_diff_witness :
  well_formed sprint_and_two_tasks
  /\ ProjectSprintWrite._inverse_task_select_ids [1%nat] [2%nat]
       sprint_and_two_tasks
     = (Ok tt,
        mkEnv [january_sprint]
              [Task.mk 1%nat (Some 1%nat) (Some (date_of_ymd 2024 1 30))
                       None;
               Task.mk 2%nat (Some 1%nat) None (Some 1%nat)]).
Proof.
  assert (Hwf : well_formed sprint_and_two_tasks) by keys_hold.
  split; [exact Hwf|].
  refine (proj1 (proj1 (proj2
            (C8_task_selection_diff (date_of_ymd 2024 1 5) [2%nat] 1%nat
               sprint_and_two_tasks january_sprint Hwf eq_refl _))
            eq_refl _)).
  - discriminate.
  - intros t Ht. simpl in Ht. rows. reflexivity.
Defined.

(** ** C9: the messages of the task selection *)

(** C9, counterexample: on the sprint without project the message is the
    sentence of the code, not the wording of the spec. *)
Lemma C9_counterexample :
  fst (ProjectSprintWrite._inverse_task_select_ids [1%nat] [1%nat]
         sprint_without_project)
  = Raise (ValidationError
             "Please select a Project before adding tasks to the sprint.")
  /\ ~ C9_as_stated.
Proof.
  split; [reflexivity|]. intros H.
  destruct (H [1%nat] 1%nat sprint_without_project _ eq_refl) as [H1 _].
  specialize (H1 eq_refl). vm_compute in H1. discriminate H1.
Qed.

(** C9 (amended): the write of the task selection raises a ValidationError
    with the message "Please select a Project before adding tasks to the
    sprint." when the sprint has no project, and with the message "You can
    only add tasks from the project assigned to the sprint." when a task to
    add is of another project; in both cases nothing is written. *)
Theorem C9_task_selection_messages (selected : list nat) (i : nat)
  (env : Env) (sprint : Sprint.t) :
  browse_sprint env i = Some sprint ->
  (Sprint.project_id sprint = None ->
   ProjectSprintWrite._inverse_task_select_ids [i] selected env
   = (Raise (ValidationError
               "Please select a Project before adding tasks to the sprint."),
      env))
  /\ (Sprint.project_id sprint <> None ->
      ProjectSprintWrite.mismatched env sprint selected <> [] ->
      ProjectSprintWrite._inverse_task_select_ids [i] selected env
      = (Raise (ValidationError
                  "You can only add tasks from the project assigned to the sprint."),
         env)).
Proof. apply inverse_refused. Qed.

(** The task of project 2 cannot be selected for the January sprint of
    project 1. *)
Lemma C9_task_selection_messages_witness :
  ProjectSprintWrite.mismatched sprint_and_foreign_task january_sprint
                                [1%nat] <> []
  /\ ProjectSprintWrite._inverse_task_select_ids [1%nat] [1%nat]
       sprint_and_foreign_task
     = (Raise (ValidationError
                 "You can only add tasks from the project assigned to the sprint."),
        sprint_and_foreign_task).
Proof.
  assert (Hm : ProjectSprintWrite.mismatched sprint_and_foreign_task
                 january_sprint [1%nat] <> []) by (vm_compute; discriminate).
  split; [exact Hm|].
  exact (proj2 (C9_task_selection_messages [1%nat] 1%nat
                  sprint_and_foreign_task january_sprint eq_refl)
           ltac:(discriminate) Hm).
Defined.

(** ** C10: writing the project a sprint already has *)

(** C10: when the sprint has a task, or is active or done, a write whose
    [project_id] is the project the sprint already has is refused like any
    other write of the field: the guard looks at the key, not at the
    value. *)
Theorem C10_same_project_rejected (today : date) (self : list nat)
  (vals : Orm.sprint_vals) (env : Env) (sp : Sprint.t) :
  In sp (sprint_records env self) ->
  Orm.v_project_id vals = Some (Sprint.project_id sp) ->
  (0 < ProjectSprint.count_tasks env sp)%nat
  \/ Sprint.state sp = active \/ Sprint.state sp = done ->
  exists msg,
    ProjectSprintWrite.write today self vals env
    = (Raise (ValidationError msg), env)
    /\ (msg = ProjectSprint.msg_has_tasks
        \/ msg = ProjectSprint.msg_active_done).
Proof.
  intros Hin Hv Hc. apply (write_refused today self vals env sp);
    [congruence|exact Hin|exact Hc].
Qed.

(** Writing project 1 to the January sprint of project 1, which has a
    task, is refused. *)
Lemma C10_same_project_rejected_witness :
  (0 < ProjectSprint.count_tasks sprint_with_task january_sprint)%nat
  /\ exists msg,
       ProjectSprintWrite.write (date_of_ymd 2024 1 5) [1%nat]
         (project_vals (Some 1%nat)) sprint_with_task
       = (Raise (ValidationError msg), sprint_with_task).
Proof.
  assert (Hc : (0 < ProjectSprint.count_tasks sprint_with_task
                      january_sprint)%nat) by (vm_compute; lia).
  split; [exact Hc|].
  destruct (C10_same_project_rejected (date_of_ymd 2024 1 5) [1%nat]
              (project_vals (Some 1%nat)) sprint_with_task january_sprint
              (or_introl eq_refl) eq_refl (or_introl Hc))
    as (msg & Hw & _).
  exists msg. exact Hw.
Defined.
